(** * wagtail_ab_testing.views

    A shallow embedding of [wagtail_ab_testing/views.py]: the checks run
    before an A/B test is created ([add_ab_test_checks], [add_form]), the
    comparison views ([add_compare], [compare_draft]), the progress view
    ([progress]) with its action handler, its aggregate statistics, its
    completion estimate and its chart time series, and the action menu of
    the progress page ([AbTestActionMenu]).

    Python integers are [Z]; Python floats are IEEE binary64 values, taken
    from the Standard Library's executable specification [SpecFloat];
    [datetime.date] values are proleptic Gregorian ordinals; the request's
    [POST] dictionary is a [gmap]; exceptions are an error monad. What
    [models.py] and Django provide (the methods of [AbTest], the manager's
    query for the current test of a page, form validation) enters as type
    classes. *)

From stdpp Require Import base option list sorting gmap strings.
From Equations Require Import Equations.
From Stdlib Require Import ZArith Lia.
From Stdlib Require Import Floats.SpecFloat.

Local Open Scope Z_scope.

(** ** Exceptions *)

Inductive exn : Set :=
| PermissionDenied
| Http404
| ZeroDivisionError
| OverflowError
| ValueError.

Inductive result (A : Type) : Type :=
| Ok (a : A)
| Raise (e : exn).
Arguments Ok {A} a.
Arguments Raise {A} e.

#[global] Instance result_ret : MRet result := λ A a, Ok a.
#[global] Instance result_bind : MBind result := λ A B f r,
match r with
| Ok a => f a
| Raise e => Raise e
end.
#[global] Instance result_fmap : FMap result := λ A B f r,
match r with
| Ok a => Ok (f a)
| Raise e => Raise e
end.

(** ** Python numbers *)

Module Py.

(** binary64 *)
Definition prec : Z := 53.
Definition emax : Z := 1024.

Abbreviation float := spec_float.

Definition is_infinite (x : float) : bool :=
  match x with S754_infinity _ => true | _ => false end.

Definition is_zero (x : float) : bool :=
  match x with S754_zero _ => true | _ => false end.

(** [bool(n)] for an [int] *)
Definition truthy (n : Z) : bool := negb (n =? 0).

(** [float(n)]: nearest binary64, [OverflowError] when out of range. *)
Definition float_of_int (n : Z) : result float :=
  let x := binary_normalize prec emax n 0 false in
  if is_infinite x then Raise OverflowError else Ok x.

(** An integer as an exact (unrounded) sign, mantissa and exponent 0. *)
Definition exact (sign_of_zero : bool) (n : Z) : float :=
  match n with
  | Z0 => S754_zero sign_of_zero
  | Zpos p => S754_finite false p 0
  | Zneg p => S754_finite true p 0
  end.

(** [a / b] on two [int]s: the correctly rounded quotient. *)
Definition int_truediv (a b : Z) : result float :=
  if b =? 0 then Raise ZeroDivisionError
  else
    let q := SFdiv prec emax (exact false a) (exact false b) in
    if is_infinite q then Raise OverflowError else Ok q.

(** [x * y] on two [float]s *)
Definition float_mul (x y : float) : float := SFmul prec emax x y.

(** [x / y] on two [float]s *)
Definition float_truediv (x y : float) : result float :=
  if is_zero y then Raise ZeroDivisionError else Ok (SFdiv prec emax x y).

(** [x * n] with [x] a [float] and [n] an [int] *)
Definition float_mul_int (x : float) (n : Z) : result float :=
  y ← float_of_int n; Ok (float_mul x y).

(** [n / y] with [n] an [int] and [y] a [float] *)
Definition int_truediv_float (n : Z) (y : float) : result float :=
  x ← float_of_int n; float_truediv x y.

(** [int(x)]: truncation towards zero *)
Definition int_of_float (x : float) : result Z :=
  match x with
  | S754_zero _ => Ok 0
  | S754_infinity _ => Raise OverflowError
  | S754_nan => Raise ValueError
  | S754_finite s m e =>
      let a := if 0 <=? e then Z.shiftl (Zpos m) e else Z.shiftr (Zpos m) (- e) in
      Ok (if s then - a else a)
  end.

(** [math.modf]: fractional part (a float of the same sign) and integral
    part of a finite float. *)
Definition modf (x : float) : float * Z :=
  match x with
  | S754_finite s m e =>
      if 0 <=? e then
        (S754_zero s, if s then - Z.shiftl (Zpos m) e else Z.shiftl (Zpos m) e)
      else
        let q := Z.shiftr (Zpos m) (- e) in
        let r := Z.land (Zpos m) (Z.ones (- e)) in
        (binary_normalize prec emax (if s then - r else r) e s,
         if s then - q else q)
  | _ => (x, 0)
  end.

(** Position of a fraction [|x| < 1] relative to one half. *)
Definition compare_half (x : float) : comparison :=
  match x with
  | S754_finite _ m e => Z.shiftl (Zpos m) 1 ?= Z.shiftl 1 (- e)
  | _ => Lt
  end.

Definition sign (x : float) : bool :=
  match x with
  | S754_zero s | S754_infinity s | S754_finite s _ _ => s
  | S754_nan => false
  end.

End Py.

(** ** [datetime] *)

Module Datetime.

(** A [date] is its proleptic Gregorian ordinal, [date.min] is 1 and
    [date.max] (9999-12-31) is 3652059. *)
Definition MAXORDINAL : Z := 3652059.
Definition MAX_DELTA_DAYS : Z := 999999999.
Definition us_per_day : Z := 86400000000.

Definition valid_date (d : Z) : Prop := 1 <= d <= MAXORDINAL.

(** [timedelta(days=x).days] for a float [x]: the days are split into an
    integral and a fractional part, the fraction is converted to
    microseconds and rounded half to even, and the total number of
    microseconds is normalised with floor division. *)
Definition timedelta_days (x : Py.float) : result Z :=
  match x with
  | S754_nan => Raise ValueError
  | S754_infinity _ => Raise OverflowError
  | _ =>
      let '(frac, whole) := Py.modf x in
      let sum := whole * us_per_day in
      us ←
        (if Py.is_zero frac then Ok sum
         else
           f ← Py.float_of_int us_per_day;
           let '(leftover, whole_us) := Py.modf (Py.float_mul f frac) in
           let y := sum + whole_us in
           let away := if Py.sign leftover then -1 else 1 in
           Ok (y + match Py.compare_half leftover with
                   | Lt => 0
                   | Gt => away
                   | Eq => if Z.odd y then away else 0
                   end));
      let days := us / us_per_day in
      if (- MAX_DELTA_DAYS <=? days) && (days <=? MAX_DELTA_DAYS)
      then Ok days else Raise OverflowError
  end.

(** [d + timedelta] uses the [days] of the timedelta only and raises
    [OverflowError] outside [date.min .. date.max]. *)
Definition date_add (d days : Z) : result Z :=
  let d' := d + days in
  if (1 <=? d') && (d' <=? MAXORDINAL) then Ok d' else Raise OverflowError.

End Datetime.

(** ** The data model

    [models.py] is not among the sources; the views read and write the
    fields below and call the three state-changing methods of [AbTest]. *)

Module Model.

(** Modelled from the spec: [AbTest.Variant], declared in [models.py];
    exactly two variants are supported. *)
Inductive Variant : Set := CONTROL | TREATMENT.

(** Modelled from the spec: [AbTest.Status], declared in [models.py];
    one of Draft, Running, Paused, Finished. *)
Inductive Status : Set := DRAFT | RUNNING | PAUSED | FINISHED.

#[global] Instance Variant_eq_dec : EqDecision Variant.
Proof. solve_decision. Defined.
#[global] Instance Status_eq_dec : EqDecision Status.
Proof. solve_decision. Defined.

(** One row of [ab_test.hourly_logs]. *)
Record HourlyLog : Set := {
  date : Z;
  hour : Z;
  variant : Variant;
  participants : Z;
  conversions : Z
}.

Record AbTest : Set := {
  name : string;
  hypothesis : string;
  goal_event : string;
  goal_page : option Z;
  sample_size : Z;
  page : Z;
  treatment_revision : Z;
  created_by : Z;
  status : Status;
  winning_variant : option Variant
}.

Definition set_status (s : Status) (t : AbTest) : AbTest :=
  {| name := name t; hypothesis := hypothesis t; goal_event := goal_event t;
     goal_page := goal_page t; sample_size := sample_size t; page := page t;
     treatment_revision := treatment_revision t; created_by := created_by t;
     status := s; winning_variant := winning_variant t |}.

(** The methods of [AbTest] that the views call; their bodies live in
    [models.py]. *)
Class AbTestMethods : Type := {
  start : AbTest → AbTest;
  pause : AbTest → AbTest;
  finish : bool → AbTest → AbTest
}.

(** Modelled from the spec: the state machine of section 4.1, without
    its timestamps: [start] enters Running, [pause] enters Paused and
    [finish] enters Finished. *)
Definition spec_methods : AbTestMethods :=
  {| start := set_status RUNNING;
     pause := set_status PAUSED;
     finish := λ _, set_status FINISHED |}.

(** A count stored in a [PositiveIntegerField]. *)
Definition valid_log (l : HourlyLog) : Prop :=
  0 <= participants l ∧ 0 <= conversions l.

End Model.

Import Model.

(** ** Query sets over [hourly_logs] *)

Module QuerySet.

Definition sumZ (l : list Z) : Z := foldr Z.add 0 l.

(** [Sum(field, filter=Q(...))]: SQL's SUM is NULL over no rows. *)
Definition Sum (field : HourlyLog → Z) (q : HourlyLog → bool)
    (rows : list HourlyLog) : option Z :=
  match filter (λ l, Is_true (q l)) rows with
  | [] => None
  | matching => Some (sumZ (field <$> matching))
  end.

(** The ordering of [order_by('date', 'hour')]. *)
Definition date_hour_le (a b : HourlyLog) : Prop :=
  date a < date b ∨ (date a = date b ∧ hour a <= hour b).

#[global] Instance date_hour_le_dec a b : Decision (date_hour_le a b).
Proof. unfold date_hour_le. apply _. Defined.

(** [order_by('date', 'hour')] as a stable sort of the rows. *)
Definition order_by_date_hour (rows : list HourlyLog) : list HourlyLog :=
  merge_sort date_hour_le rows.

(** Any answer the database may give to the ordered query: the same rows,
    sorted by date and hour; rows with equal keys in any order. *)
Definition ordered_by_date_hour (rows logs : list HourlyLog) : Prop :=
  logs ≡ₚ rows ∧ Sorted date_hour_le logs.

End QuerySet.

(** ** The progress view *)

Module Progress.

Import QuerySet.

(** *** Time series for the chart (the loop over the hourly logs) *)

(** A dictionary [{'date': .., 'control': .., 'treatment': ..}]. *)
Record data_point : Set := {
  point_date : Z;
  point_control : Z;
  point_treatment : Z
}.

(** The variables of the loop; [cur_date] is the variable [date]. *)
Record chart_state : Set := {
  time_series : list data_point;
  control : Z;
  treatment : Z;
  cur_date : option Z
}.

Definition chart_init : chart_state :=
  {| time_series := []; control := 0; treatment := 0; cur_date := None |}.

(** [if log.variant == CONTROL: control += .. else: treatment += ..] *)
Definition accumulate (log : HourlyLog) (st : chart_state) : chart_state :=
  if bool_decide (variant log = CONTROL) then
    {| time_series := time_series st; control := control st + conversions log;
       treatment := treatment st; cur_date := cur_date st |}
  else
    {| time_series := time_series st; control := control st;
       treatment := treatment st + conversions log; cur_date := cur_date st |}.

(** How many more times the body of the [while] loop can run. *)
Definition days_to_go (log_date : Z) (d : option Z) : nat :=
  match d with
  | None => 1
  | Some x => Z.to_nat (log_date - x)
  end.

(** [while date is None or date < log.date: ...]; each round sets or
    advances [date] and appends one data point carrying the current
    totals. *)
Equations? fill_days (log_date c t : Z) (d : option Z) (ts : list data_point)
    : option Z * list data_point by wf (days_to_go log_date d) lt :=
  fill_days log_date c t None ts :=
    fill_days log_date c t (Some log_date)
      (ts ++ [ {| point_date := log_date; point_control := c; point_treatment := t |} ]);
  fill_days log_date c t (Some x) ts with Z_lt_dec x log_date := {
    | left _ :=
        fill_days log_date c t (Some (x + 1))
          (ts ++ [ {| point_date := x + 1; point_control := c; point_treatment := t |} ]);
    | right _ := (Some x, ts) }.
Proof. all: unfold days_to_go; lia. Qed.

(** The body of the [for] loop. *)
Definition chart_step (st : chart_state) (log : HourlyLog) : chart_state :=
  let st := accumulate log st in
  let '(d, ts) := fill_days (date log) (control st) (treatment st) (cur_date st) (time_series st) in
  {| time_series := ts; control := control st; treatment := treatment st; cur_date := d |}.

Definition chart_loop (logs : list HourlyLog) : chart_state :=
  foldl chart_step chart_init logs.

(** [time_series] after the loop, for the ordered logs. *)
Definition chart (logs : list HourlyLog) : list data_point :=
  time_series (chart_loop logs).

(** *** Aggregate statistics *)

Record Stats : Set := {
  stats_control_participants : option Z;
  stats_control_conversions : option Z;
  stats_treatment_participants : option Z;
  stats_treatment_conversions : option Z
}.

Definition is_variant (v : Variant) (l : HourlyLog) : bool :=
  bool_decide (variant l = v).

Definition aggregate (rows : list HourlyLog) : Stats :=
  {| stats_control_participants := Sum participants (is_variant CONTROL) rows;
     stats_control_conversions := Sum conversions (is_variant CONTROL) rows;
     stats_treatment_participants := Sum participants (is_variant TREATMENT) rows;
     stats_treatment_conversions := Sum conversions (is_variant TREATMENT) rows |}.

(** [x or 0] *)
Definition or_0 (x : option Z) : Z :=
  match x with
  | Some v => if Py.truthy v then v else 0
  | None => 0
  end.

Definition control_participants rows := or_0 (stats_control_participants (aggregate rows)).
Definition control_conversions rows := or_0 (stats_control_conversions (aggregate rows)).
Definition treatment_participants rows := or_0 (stats_treatment_participants (aggregate rows)).
Definition treatment_conversions rows := or_0 (stats_treatment_conversions (aggregate rows)).

Definition current_sample_size (rows : list HourlyLog) : Z :=
  control_participants rows + treatment_participants rows.

(** *** Estimated completion date *)

(** What the view reads from the clock: [timezone.now().date()] and the
    two evaluations of [ab_test.total_running_duration().days]. *)
Record Clock : Set := {
  today : Z;
  running_duration_days : Z;
  running_duration_days_again : Z
}.

Definition estimated_completion_date (clock : Clock) (ab_test : AbTest)
    (current_sample_size : Z) : result (option Z) :=
  if bool_decide (status ab_test = RUNNING) && Py.truthy current_sample_size then
    if 0 <? running_duration_days clock then
      participants_per_day ←
        Py.int_truediv current_sample_size (running_duration_days_again clock);
      estimated_days_remaining ←
        Py.int_truediv_float (sample_size ab_test - current_sample_size) participants_per_day;
      delta ← Datetime.timedelta_days estimated_days_remaining;
      d ← Datetime.date_add (today clock) delta;
      Ok (Some d)
    else Ok None
  else Ok None.

(** *** Percentages of the template context *)

(** [int(a / b * 100)] *)
Definition int_percent (a b : Z) : result Z :=
  q ← Py.int_truediv a b;
  p ← Py.float_mul_int q 100;
  Py.int_of_float p.

(** [int(conversions / participants * 100) if participants else 0] *)
Definition conversions_percent (conversions participants : Z) : result Z :=
  if Py.truthy participants then int_percent conversions participants else Ok 0.

Record Context : Set := {
  ctx_current_sample_size : Z;
  ctx_current_sample_size_percent : Z;
  ctx_control_conversions : Z;
  ctx_control_participants : Z;
  ctx_control_conversions_percent : Z;
  ctx_treatment_conversions : Z;
  ctx_treatment_participants : Z;
  ctx_treatment_conversions_percent : Z;
  ctx_control_is_winner : bool;
  ctx_treatment_is_winner : bool;
  ctx_estimated_completion_date : option Z;
  ctx_chart_data : list data_point
}.

(** The dictionary passed to [render], its entries evaluated in order. *)
Definition render_context (ab_test : AbTest) (rows : list HourlyLog)
    (estimate : option Z) (series : list data_point) : result Context :=
  let css := current_sample_size rows in
  css_percent ← int_percent css (sample_size ab_test);
  control_percent ← conversions_percent (control_conversions rows) (control_participants rows);
  treatment_percent ← conversions_percent (treatment_conversions rows) (treatment_participants rows);
  Ok {| ctx_current_sample_size := css;
        ctx_current_sample_size_percent := css_percent;
        ctx_control_conversions := control_conversions rows;
        ctx_control_participants := control_participants rows;
        ctx_control_conversions_percent := control_percent;
        ctx_treatment_conversions := treatment_conversions rows;
        ctx_treatment_participants := treatment_participants rows;
        ctx_treatment_conversions_percent := treatment_percent;
        ctx_control_is_winner := bool_decide (winning_variant ab_test = Some CONTROL);
        ctx_treatment_is_winner := bool_decide (winning_variant ab_test = Some TREATMENT);
        ctx_estimated_completion_date := estimate;
        ctx_chart_data := series |}.

(** The view on a request that is not a POST. *)
Definition progress_get (clock : Clock) (ab_test : AbTest) (rows : list HourlyLog)
    : result Context :=
  estimate ← estimated_completion_date clock ab_test (current_sample_size rows);
  render_context ab_test rows estimate (chart (order_by_date_hour rows)).

End Progress.

(** ** Requests, messages, responses *)

Module Http.

Inductive level : Set := SUCCESS | ERROR.

(** One call of [messages.success] or [messages.error]. *)
Definition message : Type := level * string.

Record User : Type := {
  user_id : Z;
  (** the pages for which [permissions_for_user(user).can_edit()] holds *)
  editable_pages : gset Z;
  (** the permissions for which [user.has_perm] holds *)
  user_perms : gset string
}.

Record Request : Type := {
  method : string;
  POST : gmap string string;
  user : User
}.

(** [key in request.POST] *)
Definition in_POST (key : string) (request : Request) : bool :=
  bool_decide (is_Some (POST request !! key)).

Inductive Response (C : Type) : Type :=
| Redirect (url_name : string) (arg : Z)
| Render (template : string) (context : C).
Arguments Redirect {C} url_name arg.
Arguments Render {C} template context.

Record Page : Set := {
  page_id : Z;
  live : bool;
  has_unpublished_changes : bool;
  latest_revision : Z
}.

End Http.

Import Http.

(** ** The progress view, continued: the action handler *)

Module ProgressActions.

Section Handler.

Context `{methods : AbTestMethods}.

(** The branch [if request.method == 'POST'] of [progress], up to its
    redirect: the test after the call and the messages after it. *)
Definition progress_post (request : Request) (ab_test : AbTest)
    (messages : list message) : AbTest * list message :=
  if in_POST "action-start-ab-test" request || in_POST "action-restart-ab-test" request then
    if bool_decide (status ab_test ∈ [DRAFT; PAUSED]) then
      (start ab_test, messages ++ [(SUCCESS, "A/B test started!")])
    else
      (ab_test,
       messages ++ [(ERROR, "The A/B test must be in draft or paused in order to be started.")])
  else if in_POST "action-end-ab-test" request then
    if bool_decide (status ab_test ∈ [DRAFT; RUNNING; PAUSED]) then
      (finish true ab_test, messages)
    else
      (ab_test, messages ++ [(ERROR, "The A/B test has already ended.")])
  else if in_POST "action-pause-ab-test" request then
    if bool_decide (status ab_test = RUNNING) then
      (pause ab_test, messages)
    else
      (ab_test,
       messages ++ [(ERROR, "The A/B test cannot be paused because it is not running.")])
  else
    (ab_test, messages ++ [(ERROR, "Unknown action")]).

(** [progress(request, page, ab_test)]: the test and the messages after the
    request, and the response or the exception. *)
Definition progress (clock : Progress.Clock) (rows : list HourlyLog)
    (request : Request) (page : Page) (ab_test : AbTest) (messages : list message)
    : AbTest * list message * result (Response Progress.Context) :=
  if bool_decide (method request = "POST") then
    let '(ab_test', messages') := progress_post request ab_test messages in
    (ab_test', messages', Ok (Redirect "wagtailadmin_pages:edit" (page_id page)))
  else
    (ab_test, messages,
     Render "wagtail_ab_testing/progress.html" <$> Progress.progress_get clock ab_test rows).

End Handler.

End ProgressActions.

(** ** Creating an A/B test *)

Module Create.

(** What the views read and write besides the request. *)
Record Site : Type := {
  pages : list Page;
  ab_tests : list AbTest;
  messages : list message
}.

(** A view: it may raise, and it may change the site either way. *)
Definition View (A : Type) : Type := Site → result A * Site.

#[global] Instance View_ret : MRet View := λ A a s, (Ok a, s).
#[global] Instance View_bind : MBind View := λ A B f m s,
  match m s with
  | (Ok a, s') => f a s'
  | (Raise e, s') => (Raise e, s')
  end.

Definition raise {A : Type} (e : exn) : View A := λ s, (Raise e, s).

(** The site after one more [messages.error]. *)
Definition with_error (text : string) (s : Site) : Site :=
  {| pages := pages s; ab_tests := ab_tests s;
     messages := messages s ++ [(ERROR, text)] |}.

Definition messages_error (text : string) : View unit := λ s, (Ok (), with_error text s).

(** The page with the given id, if there is one. *)
Definition lookup_page (id : Z) (s : Site) : option Page :=
  find (λ p, bool_decide (page_id p = id)) (pages s).

(** [get_object_or_404(Page, id=page_id)] *)
Definition get_object_or_404 (id : Z) : View Page := λ s,
  match lookup_page id s with
  | Some p => (Ok p, s)
  | None => (Raise Http404, s)
  end.

(** A test that is Draft, Running or Paused. *)
Definition is_current (t : AbTest) : bool :=
  bool_decide (status t ∈ [DRAFT; RUNNING; PAUSED]).

(** The manager method [AbTest.objects.get_current_for_page] of
    [models.py]: the current test of a page among the stored tests, if the
    page has one. *)
Class AbTestManager : Type := {
  current_for_page : Page → list AbTest → option AbTest
}.

(** Modelled from the spec: the current test of a page is its test in
    Draft, Running or Paused. *)
Definition spec_manager : AbTestManager :=
  {| current_for_page := λ page tests,
       find (λ t, bool_decide (Model.page t = page_id page) && is_current t) tests |}.

(** [AbTest.objects.get_current_for_page(page=page)] *)
Definition get_current_for_page `{manager : AbTestManager} (page : Page)
    : View (option AbTest) := λ s,
  (Ok (current_for_page page (ab_tests s)), s).

Definition can_edit (u : User) (page : Page) : bool :=
  bool_decide (page_id page ∈ editable_pages u).

Definition has_perm (u : User) (perm : string) : bool :=
  bool_decide (perm ∈ user_perms u).

(** [add_ab_test_checks(request, page)]: [None] when every check passes. *)
Definition add_ab_test_checks `{manager : AbTestManager} {C : Type}
    (request : Request) (page : Page) : View (option (Response C)) :=
  (* User must have permission to edit the page *)
  (if negb (can_edit (user request) page) then raise PermissionDenied else mret ());;
  (* User must have permission to add A/B tests *)
  (if negb (has_perm (user request) "wagtail_ab_testing.add_abtest")
   then raise PermissionDenied else mret ());;
  (* Page must not already be running an A/B test *)
  current ← get_current_for_page page;
  if bool_decide (is_Some current) then
    messages_error "This page already has a running A/B test";;
    mret (Some (Redirect "wagtailadmin_pages:edit" (page_id page)))
  else
    (* Page must be published and have a draft revision *)
    if negb (live page) || negb (has_unpublished_changes page) then
      messages_error "To run an A/B test on this page, it must be live with draft changes.";;
      mret (Some (Redirect "wagtailadmin_pages:edit" (page_id page)))
    else mret None.

(** The fields of [CreateAbTestForm]. *)
Record FormData : Set := {
  form_name : string;
  form_hypothesis : string;
  form_goal_event : string;
  form_goal_page : option Z;
  form_sample_size : Z
}.

(** Validation of the bound form, done by Django's [ModelForm]:
    [cleaned_data] when [form.is_valid()]. *)
Class FormValidation : Type := {
  cleaned_data : gmap string string → option FormData
}.

(** [CreateAbTestForm.save(page, treatment_revision, user)]: the new test is
    inserted; a new [AbTest] is in Draft and has no winner (modelled from
    the spec: the defaults of the model's fields). *)
Definition form_save (data : FormData) (page : Page) (revision : Z) (u : User)
    : View AbTest := λ s,
  let ab_test :=
    {| name := form_name data; hypothesis := form_hypothesis data;
       goal_event := form_goal_event data; goal_page := form_goal_page data;
       sample_size := form_sample_size data; Model.page := page_id page;
       treatment_revision := revision; created_by := user_id u;
       status := DRAFT; winning_variant := None |} in
  (Ok ab_test, {| pages := pages s; ab_tests := ab_tests s ++ [ab_test];
                  messages := messages s |}).

Section Views.

Context `{methods : AbTestMethods} `{manager : AbTestManager}
  `{validation : FormValidation}.

(** [ab_test.start()] on the test just saved, the last row. *)
Definition start_saved : View unit := λ s,
  (Ok (), {| pages := pages s;
             ab_tests := alter start (pred (length (ab_tests s))) (ab_tests s);
             messages := messages s |}).

(** The form handed to the template: the data it is bound to, if any. *)
Definition FormContext : Type := Page * option (gmap string string).

(** [add_form(request, page_id)] *)
Definition add_form (request : Request) (id : Z) : View (Response FormContext) :=
  page ← get_object_or_404 id;
  (* Run some checks *)
  response ← add_ab_test_checks request page;
  match response with
  | Some response => mret response
  | None =>
      if bool_decide (method request = "POST") then
        match cleaned_data (POST request) with
        | Some data =>
            form_save data page (latest_revision page) (user request);;
            (if in_POST "start" request then start_saved else mret ());;
            mret (Redirect "wagtailadmin_pages:edit" (page_id page))
        | None =>
            mret (Render "wagtail_ab_testing/add_form.html" (page, Some (POST request)))
        end
      else
        mret (Render "wagtail_ab_testing/add_form.html" (page, None))
  end.

End Views.

End Create.

(** ** What the specification speaks of *)

Module Spec.

Import QuerySet Progress Create.

(** Follows the spec: the cumulative conversions of a variant up to a
    calendar day, the sum over the rows of the variant dated that day or
    before. *)
Definition cumulative (v : Variant) (day : Z) (rows : list HourlyLog) : Z :=
  sumZ (conversions <$> filter (λ l, variant l = v ∧ date l <= day) rows).

(** Neither cumulative column decreases from one point to the next. *)
Definition point_le (p q : data_point) : Prop :=
  point_control p <= point_control q ∧ point_treatment p <= point_treatment q.

(** The rows of one variant. *)
Definition of_variant (v : Variant) (rows : list HourlyLog) : list HourlyLog :=
  filter (λ l, variant l = v) rows.

(** Follows the spec: [conversionRate], conversions over participants,
    defined as 0 when there are no participants. *)
Definition conversion_rate (conversions participants : Z) : result Py.float :=
  if participants =? 0 then Ok (S754_zero false)
  else Py.int_truediv conversions participants.

(** A rate shown as a whole percentage: [int(rate * 100)]. *)
Definition as_percent (rate : Py.float) : result Z :=
  Py.float_mul_int rate 100 ≫= Py.int_of_float.

(** The sums over the hourly logs are far inside the range of a float (a
    sum the database returns is below [2 ^ 63]). *)
Definition float_sized (rows : list HourlyLog) : Prop :=
  Z.abs (current_sample_size rows) < 2 ^ 1000
  ∧ Z.abs (control_conversions rows) < 2 ^ 1000
  ∧ Z.abs (treatment_conversions rows) < 2 ^ 1000.

(** The actions of the progress page, the key each one posts, the
    statuses from which it is legal and the method it calls. *)
Inductive action : Set := Start | Restart | End_test | Pause.

#[global] Instance action_eq_dec : EqDecision action.
Proof. solve_decision. Defined.

Definition action_key (a : action) : string :=
  match a with
  | Start => "action-start-ab-test"
  | Restart => "action-restart-ab-test"
  | End_test => "action-end-ab-test"
  | Pause => "action-pause-ab-test"
  end.

Definition legal (a : action) (s : Status) : bool :=
  match a, s with
  | (Start | Restart), (DRAFT | PAUSED) => true
  | Pause, RUNNING => true
  | End_test, (DRAFT | RUNNING | PAUSED) => true
  | _, _ => false
  end.

Definition apply_action `{methods : AbTestMethods} (a : action) : AbTest → AbTest :=
  match a with
  | Start | Restart => start
  | End_test => finish true
  | Pause => pause
  end.

(** The request was turned down: the test is as it was and one error
    message was added. *)
Definition rejected (ab_test : AbTest) (messages : list message)
    (after : AbTest * list message) : Prop :=
  after.1 = ab_test ∧ ∃ text, after.2 = messages ++ [(ERROR, text)].

(** The page already has a current test: [get_current_for_page] finds one. *)
Definition has_current_test `{manager : AbTestManager} (page : Page) (s : Site) : Prop :=
  is_Some (current_for_page page (ab_tests s)).

(** The page has a test in Draft, Running or Paused. *)
Definition has_open_test (page : Page) (s : Site) : Prop :=
  ∃ t, t ∈ ab_tests s ∧ Model.page t = page_id page
       ∧ status t ∈ [DRAFT; RUNNING; PAUSED].

(** A manager that finds no current test for a page only when none of the
    page's tests is Draft, Running or Paused. *)
Definition finds_open_tests (manager : AbTestManager) : Prop :=
  ∀ page tests, current_for_page page tests = None →
    ∀ u, u ∈ tests → Model.page u = page_id page → is_current u = false.

(** The user may edit the page and may add A/B tests. *)
Definition permitted (request : Request) (page : Page) : bool :=
  can_edit (user request) page
  && has_perm (user request) "wagtail_ab_testing.add_abtest".

(** At most one test per page is Draft, Running or Paused. *)
Definition one_current_per_page (s : Site) : Prop :=
  ∀ i j t u, ab_tests s !! i = Some t → ab_tests s !! j = Some u →
    Model.page t = Model.page u → is_current t = true → is_current u = true → i = j.

End Spec.

(** ** Auxiliary definitions for the proofs *)

Module Aux.

Import Progress.

(** Finite or zero, with fewer than [K] bits before the binary point. *)
Definition below (K : Z) (x : Py.float) : Prop :=
  match x with
  | S754_zero _ => True
  | S754_finite _ m e => Zdigits2 (Z.pos m) + e <= K ∧ e <= Py.emax - Py.prec
  | _ => False
  end.

(** The points appended for a list of days, all with the same totals. *)
Definition new_points (c t : Z) (days : list Z) : list data_point :=
  (λ d, {| point_date := d; point_control := c; point_treatment := t |}) <$> days.

(** The days for which one round of the [for] loop adds a point, and the
    value of [date] after it. *)
Definition days_added (d : option Z) (log_date : Z) : list Z :=
  match d with
  | None => [log_date]
  | Some x => seqZ (x + 1) (log_date - x)
  end.

Definition date_after (d : option Z) (log_date : Z) : Z :=
  match d with
  | None => log_date
  | Some x => Z.max x log_date
  end.

(** The date of the last log of a list, [x] for the empty list. *)
Definition last_date (x : Z) (logs : list HourlyLog) : Z :=
  foldl (λ _ l, date l) x logs.

(** A point that does not exceed the running totals. *)
Definition within (c t : Z) (p : data_point) : Prop :=
  point_control p <= c ∧ point_treatment p <= t.

(** What a point of the chart carries: the conversions of the logs up to
    and including the first log dated the point's day or later. *)
Definition taken_at_first_log (logs : list HourlyLog) (p : data_point) : Prop :=
  ∃ before l after,
    logs = before ++ l :: after
    ∧ Forall (λ l', date l' < point_date p) before
    ∧ point_date p <= date l
    ∧ point_control p = QuerySet.sumZ (conversions <$> Spec.of_variant CONTROL (before ++ [l]))
    ∧ point_treatment p = QuerySet.sumZ (conversions <$> Spec.of_variant TREATMENT (before ++ [l])).

End Aux.

(** ** Concrete inputs *)

Module Examples.

Import Progress Create.

Definition log (d h : Z) (v : Variant) (p c : Z) : HourlyLog :=
  {| date := d; hour := h; variant := v; participants := p; conversions := c |}.

Definition point (d c t : Z) : data_point :=
  {| point_date := d; point_control := c; point_treatment := t |}.

(** 2021-01-01 is day 737791. Two hours of the same day. *)
Definition rows_same_day : list HourlyLog :=
  [ log 737791 9 CONTROL 5 1; log 737791 10 CONTROL 4 2 ].

(** Two days with logs and a day without any between them. *)
Definition rows_gap : list HourlyLog :=
  [ log 737791 9 CONTROL 5 1; log 737793 9 CONTROL 7 5 ].

(** Rows in no particular order, both variants, a gap of two days. *)
Definition rows_mixed : list HourlyLog :=
  [ log 737795 8 TREATMENT 20 4; log 737791 9 CONTROL 5 1;
    log 737792 0 TREATMENT 9 3; log 737791 9 TREATMENT 6 2;
    log 737795 7 CONTROL 11 0 ].

(** 40 participants and 8 conversions for the control, 40 and 20 for the
    treatment. *)
Definition rows_eighty : list HourlyLog :=
  [ log 737791 9 CONTROL 40 8; log 737791 9 TREATMENT 40 20 ].

(** One participant, no conversion. *)
Definition rows_one_participant : list HourlyLog :=
  [ log 737791 9 CONTROL 1 0 ].

Definition test_with (s : Status) (size : Z) : AbTest :=
  {| name := "Homepage hero"; hypothesis := "A bigger button converts better"; goal_event := "visit-page";
     goal_page := Some 7; sample_size := size; page := 1; treatment_revision := 12;
     created_by := 3; status := s; winning_variant := None |}.

(** 2021-01-31, thirty whole days after the test was started. *)
Definition clock_day_30 : Clock :=
  {| today := 737821; running_duration_days := 30; running_duration_days_again := 30 |}.

Definition editor : User :=
  {| user_id := 3; editable_pages := {[ 1; 2 ]};
     user_perms := {[ "wagtail_ab_testing.add_abtest" ]} |}.

Definition visitor : User :=
  {| user_id := 4; editable_pages := ∅; user_perms := ∅ |}.

Definition home : Page :=
  {| page_id := 1; live := true; has_unpublished_changes := true; latest_revision := 12 |}.

Definition unpublished : Page :=
  {| page_id := 2; live := false; has_unpublished_changes := true; latest_revision := 5 |}.

(** The home page has a running test, the other page has none. *)
Definition site : Site :=
  {| pages := [ home; unpublished ]; ab_tests := [ test_with RUNNING 100 ]; messages := [] |}.

Definition site_without_tests : Site :=
  {| pages := [ home; unpublished ]; ab_tests := []; messages := [] |}.

Definition post (u : User) (data : gmap string string) : Request :=
  {| method := "POST"; POST := data; user := u |}.

(** A form that is valid when it names the test. *)
Definition name_required : FormValidation :=
  {| cleaned_data := λ data,
       n ← data !! "name";
       Some {| form_name := n; form_hypothesis := "A bigger button converts better"; form_goal_event := "visit-page";
               form_goal_page := None; form_sample_size := 100 |} |}.

End Examples.

(** ** The action menu of the progress page *)

Module ActionMenu.

(** The four subclasses of [ActionMenuItem]. *)
Inductive MenuItem : Set :=
| StartAbTestMenuItem
| RestartAbTestMenuItem
| EndAbTestMenuItem
| PauseAbTestMenuItem.

#[global] Instance MenuItem_eq_dec : EqDecision MenuItem.
Proof. solve_decision. Defined.

(** The class attribute [name]: the key the item's button posts. *)
Definition item_name (item : MenuItem) : string :=
  match item with
  | StartAbTestMenuItem => "action-start-ab-test"
  | RestartAbTestMenuItem => "action-restart-ab-test"
  | EndAbTestMenuItem => "action-end-ab-test"
  | PauseAbTestMenuItem => "action-pause-ab-test"
  end.

(** The class attribute [label]. *)
Definition item_label (item : MenuItem) : string :=
  match item with
  | StartAbTestMenuItem => "Start A/B test"
  | RestartAbTestMenuItem => "Restart A/B test"
  | EndAbTestMenuItem => "End A/B test"
  | PauseAbTestMenuItem => "Pause A/B test"
  end.

(** [is_shown(request, context)], which reads [context['ab_test'].status]. *)
Definition is_shown (item : MenuItem) (ab_test : AbTest) : bool :=
  match item with
  | StartAbTestMenuItem => bool_decide (status ab_test = DRAFT)
  | RestartAbTestMenuItem => bool_decide (status ab_test = PAUSED)
  | EndAbTestMenuItem => bool_decide (status ab_test ∈ [DRAFT; RUNNING; PAUSED])
  | PauseAbTestMenuItem => bool_decide (status ab_test = RUNNING)
  end.

(** The attributes of an [AbTestActionMenu] that depend on the test. *)
Record AbTestActionMenu : Set := {
  menu_items : list MenuItem;
  default_item : option MenuItem
}.

(** [AbTestActionMenu.__init__]: the items are listed in the order 0 to 3,
    the ones not shown are dropped, and [pop(0)] takes the first one out
    as the default; the [IndexError] of [pop] on an empty list is caught
    and leaves no default. *)
Definition init (ab_test : AbTest) : AbTestActionMenu :=
  let menu_items :=
    [ StartAbTestMenuItem; RestartAbTestMenuItem; EndAbTestMenuItem; PauseAbTestMenuItem ] in
  let menu_items := filter (λ item, Is_true (is_shown item ab_test)) menu_items in
  match menu_items with
  | first :: rest => {| menu_items := rest; default_item := Some first |}
  | [] => {| menu_items := []; default_item := None |}
  end.

(** The dictionary given to [render_to_string]. *)
Record MenuContext : Set := {
  default_menu_item : string;
  show_menu : bool;
  rendered_menu_items : list string
}.

(** The outcome of [render_html]: the context of the template, or the
    [AttributeError] of a method call on [None]. *)
Inductive rendered : Set :=
| Rendered (context : MenuContext)
| AttributeError.

Section Render.

(** [ActionMenuItem.render_html], of wagtail. *)
Variable item_html : MenuItem → string.

(** [AbTestActionMenu.render_html]: [self.default_item.render_html] is
    called first, whether or not there is a default item. *)
Definition render_html (menu : AbTestActionMenu) : rendered :=
  match default_item menu with
  | None => AttributeError
  | Some item =>
      Rendered {| default_menu_item := item_html item;
                  show_menu := bool_decide (menu_items menu ≠ []);
                  rendered_menu_items := item_html <$> menu_items menu |}
  end.

End Render.

End ActionMenu.

(** ** Comparing the page with its draft *)

Module Compare.

Import Create.

(** The comparisons of a page with its latest revision, the objects
    [comp(page, latest_revision_as_page)] built from
    [page.get_edit_handler().get_comparison()], and their [has_changed()];
    both are wagtail's. *)
Class PageComparison : Type := {
  Comparison : Type;
  get_comparison : Page → list Comparison;
  has_changed : Comparison → bool
}.

Section Views.

Context `{manager : AbTestManager} `{comparison_of : PageComparison}.

(** [[comp for comp in comparison if comp.has_changed()]] *)
Definition changed (page : Page) : list Comparison :=
  filter (λ comp, Is_true (has_changed comp)) (get_comparison page).

(** The context of [add_compare.html]. *)
Record CompareContext : Type := {
  cmp_page : Page;
  cmp_latest_revision_as_page : Z;
  cmp_comparison : list Comparison;
  cmp_differences : bool
}.

(** [add_compare(request, page_id)] *)
Definition add_compare (request : Request) (id : Z) : View (Response CompareContext) :=
  page ← get_object_or_404 id;
  (* Run some checks *)
  response ← add_ab_test_checks request page;
  match response with
  | Some response => mret response
  | None =>
      let comparison := changed page in
      mret (Render "wagtail_ab_testing/add_compare.html"
              {| cmp_page := page;
                 cmp_latest_revision_as_page := latest_revision page;
                 cmp_comparison := comparison;
                 cmp_differences := existsb has_changed comparison |})
  end.

(** The context of [compare.html]. *)
Record DraftContext : Type := {
  draft_page : Page;
  draft_latest_revision_as_page : Z;
  draft_comparison : list Comparison
}.

(** [compare_draft(request, page_id)] *)
Definition compare_draft (request : Request) (id : Z) : View (Response DraftContext) :=
  page ← get_object_or_404 id;
  mret (Render "wagtail_ab_testing/compare.html"
          {| draft_page := page;
             draft_latest_revision_as_page := latest_revision page;
             draft_comparison := changed page |}).

End Views.

End Compare.

(** ** More of what the properties speak of *)

Module Terms.

Import Progress Create ActionMenu.

(** A number of the given sign: a zero, a finite float or an infinity
    whose sign bit is [s]. *)
Definition signed (s : bool) (x : Py.float) : Prop :=
  match x with
  | S754_nan => False
  | S754_zero s' | S754_infinity s' | S754_finite s' _ _ => s' = s
  end.

(** Zero, or finite with magnitude at most [g * 2 ^ k]. *)
Definition at_most (g k : Z) (x : Py.float) : Prop :=
  match x with
  | S754_zero _ => True
  | S754_finite _ m e => e <= k ∧ Z.pos m <= g * 2 ^ (k - e)
  | _ => False
  end.

(** The conditions under which the view computes an estimate. *)
Definition estimate_due (clock : Clock) (ab_test : AbTest) (css : Z) : Prop :=
  status ab_test = RUNNING ∧ css ≠ 0 ∧ 0 < running_duration_days clock.

(** Every check of [add_ab_test_checks] passes. *)
Definition checks_pass `{manager : AbTestManager} (request : Request) (page : Page)
    (s : Site) : Prop :=
  Spec.permitted request page = true
  ∧ ¬ Spec.has_current_test page s
  ∧ live page = true ∧ has_unpublished_changes page = true.

(** The test that a valid form creates for a page. *)
Definition new_test (data : FormData) (page : Page) (u : User) : AbTest :=
  {| name := form_name data; hypothesis := form_hypothesis data;
     goal_event := form_goal_event data; goal_page := form_goal_page data;
     sample_size := form_sample_size data; Model.page := page_id page;
     treatment_revision := latest_revision page; created_by := user_id u;
     status := DRAFT; winning_variant := None |}.

(** The site after a valid form has been saved for a page: the new test
    is the last row, started when the form was sent with [start]. *)
Definition created `{methods : AbTestMethods} (request : Request) (page : Page)
    (data : FormData) (s : Site) : Site :=
  {| pages := pages s;
     ab_tests := ab_tests s ++
       [ (if in_POST "start" request then start else Datatypes.id)
           (new_test data page (user request)) ];
     messages := messages s |}.

(** The action of the handler behind a menu item. *)
Definition item_action (item : MenuItem) : Spec.action :=
  match item with
  | StartAbTestMenuItem => Spec.Start
  | RestartAbTestMenuItem => Spec.Restart
  | EndAbTestMenuItem => Spec.End_test
  | PauseAbTestMenuItem => Spec.Pause
  end.

(** All items of a menu, the default one first. *)
Definition all_items (menu : AbTestActionMenu) : list MenuItem :=
  match default_item menu with
  | Some item => item :: menu_items menu
  | None => menu_items menu
  end.

(** A request to one of the three views that lead to a new test. *)
Inductive wizard_request : Type :=
  | to_add_compare (request : Request) (id : Z)
  | to_add_form (request : Request) (id : Z)
  | to_compare_draft (request : Request) (id : Z).

Section Wizard.

Context `{methods : AbTestMethods} `{manager : AbTestManager}
  `{validation : FormValidation} `{comparison_of : Compare.PageComparison}.

(** The site after a request has been served, whatever the answer. *)
Definition serve (r : wizard_request) (s : Site) : Site :=
  match r with
  | to_add_compare request id => (Compare.add_compare request id s).2
  | to_add_form request id => (add_form request id s).2
  | to_compare_draft request id => (Compare.compare_draft request id s).2
  end.

(** The site after a sequence of requests, served one after the other. *)
Definition serve_all (rs : list wizard_request) (s : Site) : Site :=
  foldl (λ s r, serve r s) s rs.

End Wizard.

End Terms.

(** ** More examples *)

Module Samples.

Import Create Compare.

Definition get (u : User) : Request :=
  {| method := "GET"; POST := ∅; user := u |}.

(** A page whose title differs from its latest revision and whose body
    does not; a comparison is the name of a field and whether it changed. *)
Definition title_changed : PageComparison :=
  {| Comparison := string * bool;
     get_comparison := λ _, [ ("title", true); ("body", false) ];
     has_changed := snd |}.

End Samples.

(** ** Facts about binary64 arithmetic *)

Module PyFacts.

Import Py Aux.

Lemma digits2_pos_size p : digits2_pos p = Pos.size p.
Proof. induction p; simpl; congruence. Qed.

Lemma Zdigits2_nonneg m : 0 <= Zdigits2 m.
Proof. destruct m; simpl; lia. Qed.

Lemma Zdigits2_gt m : 0 <= m → m < 2 ^ Zdigits2 m.
Proof.
  destruct m as [|p|p]; simpl; [lia| |lia]. intros _.
  rewrite digits2_pos_size. pose proof (Pos.size_gt p) as H.
  apply Pos2Z.pos_lt_pos in H. rewrite Pos2Z.inj_pow in H. exact H.
Qed.

Lemma Zdigits2_le m k : 0 <= k → 0 <= m < 2 ^ k → Zdigits2 m <= k.
Proof.
  destruct m as [|p|p]; simpl; [lia| |lia]. intros Hk [_ Hlt].
  rewrite digits2_pos_size. pose proof (Pos.size_le p) as H.
  apply Pos2Z.pos_le_pos in H. rewrite Pos2Z.inj_pow in H.
  destruct (Z_lt_le_dec k (Z.pos (Pos.size p))) as [Hc|Hc]; [|lia].
  exfalso. assert (2 ^ (k + 1) <= 2 ^ Z.pos (Pos.size p)) by (apply Z.pow_le_mono_r; lia).
  rewrite Z.pow_add_r in * by lia. lia.
Qed.

Lemma shr_1_m mrs : 0 <= shr_m mrs → shr_m (shr_1 mrs) = shr_m mrs / 2.
Proof.
  destruct mrs as [m r s]. cbn [shr_1 shr_m]. destruct m as [|[p|p|]|p]; cbn [shr_m]; intros H; try lia.
  - done.
  - change (Z.pos p~1) with (2 * Z.pos p + 1). apply Z.div_unique with 1; lia.
  - change (Z.pos p~0) with (2 * Z.pos p). apply Z.div_unique with 0; lia.
  - done.
Qed.

Lemma iter_shr_1_m p : ∀ mrs, 0 <= shr_m mrs →
  shr_m (iter_pos shr_1 p mrs) = shr_m mrs / 2 ^ Z.pos p.
Proof.
  induction p as [p IH|p IH|]; intros mrs H; simpl.
  - assert (H1 : 0 <= shr_m (shr_1 mrs)) by (rewrite shr_1_m by done; apply Z.div_pos; lia).
    assert (H2 : 0 <= shr_m (iter_pos shr_1 p (shr_1 mrs))) by (rewrite IH by done; apply Z.div_pos; lia).
    rewrite IH, IH, shr_1_m by done.
    rewrite !Z.div_div by lia. f_equal.
    replace (Z.pos p~1) with (1 + Z.pos p + Z.pos p) by lia.
    rewrite !Z.pow_add_r by lia. rewrite Z.pow_1_r. ring.
  - assert (H2 : 0 <= shr_m (iter_pos shr_1 p mrs)) by (rewrite IH by done; apply Z.div_pos; lia).
    rewrite IH, IH by done. rewrite !Z.div_div by lia. f_equal.
    replace (Z.pos p~0) with (Z.pos p + Z.pos p) by lia. by rewrite Z.pow_add_r by lia.
  - rewrite shr_1_m by done. done.
Qed.

Lemma shr_record_of_loc_m m l : shr_m (shr_record_of_loc m l) = m.
Proof. destruct l as [|[]]; done. Qed.

Lemma shr_fexp_spec m e l mrs e' :
  0 <= m → shr_fexp prec emax m e l = (mrs, e') →
  e' = Z.max e (fexp prec emax (Zdigits2 m + e)) ∧ shr_m mrs = m / 2 ^ (e' - e).
Proof.
  intros Hm. unfold shr_fexp, shr.
  destruct (fexp prec emax (Zdigits2 m + e) - e) as [|p|p] eqn:E; intros [= <- <-].
  - split; [lia|]. by rewrite shr_record_of_loc_m, Z.sub_diag, Z.div_1_r.
  - split; [lia|]. rewrite iter_shr_1_m by (by rewrite shr_record_of_loc_m).
    rewrite shr_record_of_loc_m. do 2 f_equal. lia.
  - split; [lia|]. by rewrite shr_record_of_loc_m, Z.sub_diag, Z.div_1_r.
Qed.

Lemma round_nearest_even_bounds m l :
  m <= round_nearest_even m l <= m + 1.
Proof. destruct l as [|[]]; simpl; try lia. destruct (Z.even m); lia. Qed.

Lemma fexp_le x : fexp prec emax x = Z.max (x - 53) (-1074).
Proof. reflexivity. Qed.

Lemma digits_div m n : 0 <= m → 0 <= n → Zdigits2 (m / 2 ^ n) + n <= Z.max (Zdigits2 m) n.
Proof.
  intros Hm Hn. pose proof (Zdigits2_gt m Hm) as Hlt. pose proof (Zdigits2_nonneg m) as H0.
  destruct (Z_le_gt_dec n (Zdigits2 m)) as [Hc|Hc].
  - assert (Zdigits2 (m / 2 ^ n) <= Zdigits2 m - n); [|lia].
    apply Zdigits2_le; [lia|]. split; [apply Z.div_pos; lia|].
    apply Z.div_lt_upper_bound; [lia|]. rewrite <- Z.pow_add_r by lia.
    replace (n + (Zdigits2 m - n)) with (Zdigits2 m) by lia. done.
  - rewrite Z.div_small; [simpl; lia|]. split; [done|].
    eapply Z.lt_le_trans; [exact Hlt|]. apply Z.pow_le_mono_r; lia.
Qed.

Lemma binary_round_aux_below K s m e l :
  0 <= m → Zdigits2 m + e <= K → e <= emax - prec → -1074 <= K → K <= 1022 →
  below (K + 1) (binary_round_aux prec emax s m e l).
Proof.
  intros Hm Hd He HK1 HK2. unfold binary_round_aux.
  destruct (shr_fexp prec emax m e l) as [mrs' e'] eqn:E1.
  apply shr_fexp_spec in E1 as [He' Hm']; [|done].
  set (m1 := round_nearest_even (shr_m mrs') (loc_of_shr_record mrs')).
  pose proof (round_nearest_even_bounds (shr_m mrs') (loc_of_shr_record mrs')) as Hr. fold m1 in Hr.
  assert (Hm'0 : 0 <= shr_m mrs') by (rewrite Hm'; apply Z.div_pos; lia).
  assert (Hee : e <= e') by lia.
  assert (Hd1 : Zdigits2 m1 + e' <= K + 1).
  { pose proof (digits_div m (e' - e) Hm ltac:(lia)) as Hdd. rewrite <- Hm' in Hdd.
    assert (Zdigits2 m1 <= Zdigits2 (shr_m mrs') + 1).
    { apply Zdigits2_le; [pose proof (Zdigits2_nonneg (shr_m mrs')); lia|].
      split; [lia|]. pose proof (Zdigits2_gt _ Hm'0). pose proof (Zdigits2_nonneg (shr_m mrs')).
      rewrite Z.pow_add_r by lia. lia. }
    rewrite fexp_le in He'. pose proof (Zdigits2_nonneg m). pose proof (Zdigits2_nonneg (shr_m mrs')). lia. }
  destruct (shr_fexp prec emax m1 e' loc_Exact) as [mrs'' e''] eqn:E2.
  apply shr_fexp_spec in E2 as [He'' Hm'']; [|lia].
  rewrite fexp_le in He', He''. unfold emax, prec in *.
  destruct (shr_m mrs'') as [|p|p] eqn:Ep; simpl.
  - done.
  - assert (e'' <= 971) by lia.
    destruct (Z.leb_spec e'' (1024 - 53)); [|lia]. unfold below, emax, prec. split; [|lia].
    pose proof (digits_div m1 (e'' - e') ltac:(lia) ltac:(lia)) as Hdd.
    rewrite <- Hm'' in Hdd. cbn [Zdigits2] in Hdd |- *. lia.
  - assert (0 <= m1 / 2 ^ (e'' - e')) by (apply Z.div_pos; lia). lia.
Qed.


Lemma Zdigits2_mul a b : 0 <= a → 0 <= b → Zdigits2 (a * b) <= Zdigits2 a + Zdigits2 b.
Proof.
  intros Ha Hb. pose proof (Zdigits2_gt a Ha). pose proof (Zdigits2_gt b Hb).
  pose proof (Zdigits2_nonneg a). pose proof (Zdigits2_nonneg b).
  apply Zdigits2_le; [lia|]. rewrite Z.pow_add_r by lia. nia.
Qed.

Lemma Zdigits2_mono a b : 0 <= a <= b → Zdigits2 a <= Zdigits2 b.
Proof.
  intros [Ha Hab]. apply Zdigits2_le; [apply Zdigits2_nonneg|].
  pose proof (Zdigits2_gt b ltac:(lia)). lia.
Qed.

Lemma Zdigits2_shift a s : 0 <= a → 0 <= s → Zdigits2 (a * 2 ^ s) <= Zdigits2 a + s.
Proof.
  intros Ha Hs. pose proof (Zdigits2_gt a Ha). pose proof (Zdigits2_nonneg a).
  assert (0 < 2 ^ s) by (apply Z.pow_pos_nonneg; lia).
  apply Zdigits2_le; [lia|]. rewrite Z.pow_add_r by lia. nia.
Qed.

Lemma SFdiv_core_binary_bound ma mb q e' l :
  SFdiv_core_binary prec emax (Z.pos ma) 0 (Z.pos mb) 0 = (q, e', l) →
  0 <= q ∧ Zdigits2 q + e' <= Zdigits2 (Z.pos ma) ∧ e' <= 0.
Proof.
  unfold SFdiv_core_binary.
  set (e0 := Z.min _ _).
  set (m' := match 0 - 0 - e0 with Z.pos _ => _ | _ => _ end).
  destruct (Z.div_eucl m' (Z.pos mb)) as [q0 r] eqn:Ediv. intros [= <- <- _].
  assert (He0 : e0 <= 0) by (unfold e0; lia).
  assert (Hm' : m' = Z.pos ma * 2 ^ (- e0)).
  { unfold m'. destruct (0 - 0 - e0) as [|s|s] eqn:Es.
    - replace (- e0) with 0 by lia. lia.
    - rewrite Z.shiftl_mul_pow2 by lia. do 2 f_equal. lia.
    - lia. }
  assert (Hqv : q0 = m' / Z.pos mb) by (unfold Z.div; by rewrite Ediv).
  assert (H2 : 0 < 2 ^ (- e0)) by (apply Z.pow_pos_nonneg; lia).
  assert (Hq0 : 0 <= q0) by (rewrite Hqv; apply Z.div_pos; nia).
  assert (Hqm : q0 <= m') by (rewrite Hqv; apply Z.div_le_upper_bound; nia).
  pose proof (Zdigits2_mono q0 m' ltac:(lia)).
  pose proof (Zdigits2_shift (Z.pos ma) (- e0) ltac:(lia) ltac:(lia)).
  rewrite <- Hm' in *. lia.
Qed.

(** The quotient of two integers is a float when the dividend is below
    [2 ^ 1022] in magnitude and the divisor is not zero. *)
Lemma int_truediv_below K a b :
  b ≠ 0 → Z.abs a < 2 ^ K → 0 <= K <= 1022 →
  ∃ q, int_truediv a b = Ok q ∧ below (K + 1) q.
Proof.
  intros Hb Ha HK. unfold int_truediv. destruct (Z.eqb_spec b 0) as [|_]; [done|].
  assert (Hq : below (K + 1) (SFdiv prec emax (exact false a) (exact false b))).
  { destruct a as [|ma|ma], b as [|mb|mb]; try done; cbn [exact SFdiv];
      (destruct (SFdiv_core_binary _ _ _ _ _ _) as [[q e'] l] eqn:E;
       apply SFdiv_core_binary_bound in E as (Hq0 & Hd & He');
       assert (Zdigits2 (Z.pos ma) <= K)
         by (apply Zdigits2_le; [lia|]; split; [lia|]; simpl in Ha; lia);
       apply binary_round_aux_below; [done|lia|unfold emax, prec; lia|lia|lia]). }
  destruct (SFdiv _ _ _ _) as [| | |]; try done; simpl; eauto.
Qed.

(** One hundred as a float. *)
Lemma float_of_int_100 : float_of_int 100 = Ok (S754_finite false 7036874417766400 (-46)).
Proof. reflexivity. Qed.

Lemma float_mul_int_100_below K x :
  below K x → -1074 <= K + 7 → K + 7 <= 1022 →
  ∃ y, float_mul_int x 100 = Ok y ∧ below (K + 8) y.
Proof.
  intros Hx HK1 HK2. unfold float_mul_int. rewrite float_of_int_100. cbn [mbind result_bind].
  eexists; split; [done|]. unfold float_mul.
  destruct x as [s| | |s m e]; try done. cbn [SFmul]. destruct Hx as [Hd He].
  replace (K + 8) with (K + 7 + 1) by lia.
  apply binary_round_aux_below; [lia| |unfold emax, prec in *; lia|lia|lia].
  rewrite Pos2Z.inj_mul.
  pose proof (Zdigits2_mul (Z.pos m) 7036874417766400 ltac:(lia) ltac:(lia)) as Hmul.
  change (Zdigits2 7036874417766400) with 53 in Hmul. lia.
Qed.

Lemma int_of_float_below K x : below K x → ∃ n, int_of_float x = Ok n.
Proof. destruct x; simpl; try done; eauto. Qed.

End PyFacts.

(** ** Facts about sums *)

Module SumFacts.

Import QuerySet.

Lemma sumZ_cons x l : sumZ (x :: l) = x + sumZ l.
Proof. reflexivity. Qed.

Lemma sumZ_app l1 l2 : sumZ (l1 ++ l2) = sumZ l1 + sumZ l2.
Proof. induction l1 as [|x l1 IH]; [done|]. rewrite <- app_comm_cons, !sumZ_cons, IH. lia. Qed.

End SumFacts.

(** ** Facts about the chart loop *)

Module ChartFacts.

Import QuerySet Progress Aux Spec SumFacts.

Lemma fill_days_reached ld c t x ts :
  ld <= x → fill_days ld c t (Some x) ts = (Some x, ts).
Proof. intros H. simp fill_days. destruct (Z_lt_dec x ld); [lia|done]. Qed.

Lemma fill_days_advance ld c t x ts :
  x < ld →
  fill_days ld c t (Some x) ts = fill_days ld c t (Some (x + 1)) (ts ++ new_points c t [x + 1]).
Proof. intros H. simp fill_days. destruct (Z_lt_dec x ld); [|lia]. simpl. by simp fill_days. Qed.

Lemma fill_days_first ld c t ts :
  fill_days ld c t None ts = (Some ld, ts ++ new_points c t [ld]).
Proof. rewrite fill_days_equation_2. by rewrite fill_days_reached by lia. Qed.

Lemma fill_days_next ld c t x ts :
  fill_days ld c t (Some x) ts
  = (Some (Z.max x ld), ts ++ new_points c t (seqZ (x + 1) (ld - x))).
Proof.
  remember (Z.to_nat (ld - x)) as n eqn:Hn. revert x ts Hn.
  induction n as [|n IH]; intros x ts Hn.
  - rewrite fill_days_reached by lia. rewrite seqZ_nil by lia.
    unfold new_points. simpl. rewrite app_nil_r. do 2 f_equal. lia.
  - rewrite fill_days_advance by lia. rewrite IH by lia.
    rewrite (seqZ_cons (x + 1)) by lia. unfold new_points. simpl.
    rewrite <- app_assoc. simpl. do 2 f_equal; [lia|].
    do 3 f_equal; lia.
Qed.

Lemma chart_step_eq st log :
  chart_step st log =
  let st1 := accumulate log st in
  {| time_series :=
       time_series st
       ++ new_points (control st1) (treatment st1) (days_added (cur_date st) (date log));
     control := control st1;
     treatment := treatment st1;
     cur_date := Some (date_after (cur_date st) (date log)) |}.
Proof.
  unfold chart_step.
  assert (Hd : cur_date (accumulate log st) = cur_date st)
    by (unfold accumulate; by case_bool_decide).
  assert (Ht : time_series (accumulate log st) = time_series st)
    by (unfold accumulate; by case_bool_decide).
  rewrite Hd, Ht. destruct (cur_date st) as [x|]; simpl.
  - by rewrite fill_days_next.
  - by rewrite fill_days_first.
Qed.

Lemma accumulate_control log st :
  control (accumulate log st)
  = control st + (if bool_decide (variant log = CONTROL) then conversions log else 0).
Proof. unfold accumulate. case_bool_decide; simpl; lia. Qed.

Lemma accumulate_treatment log st :
  treatment (accumulate log st)
  = treatment st + (if bool_decide (variant log = CONTROL) then 0 else conversions log).
Proof. unfold accumulate. case_bool_decide; simpl; lia. Qed.

Lemma last_date_last x logs lst : last logs = Some lst → last_date x logs = date lst.
Proof.
  intros [l' ->]%last_Some. unfold last_date. by rewrite foldl_app.
Qed.

Lemma Sorted_date_hour_inv l logs :
  Sorted date_hour_le (l :: logs) →
  Sorted date_hour_le logs ∧ ∀ l', head logs = Some l' → date l <= date l'.
Proof.
  intros H. apply Sorted_inv in H as [Hs Hh]. split; [done|].
  intros l' Hl'. destruct logs as [|l0 logs]; [done|]. simplify_eq/=.
  apply HdRel_inv in Hh. unfold date_hour_le in Hh. lia.
Qed.

Lemma chart_loop_dates logs : ∀ st x,
  cur_date st = Some x →
  Sorted date_hour_le logs →
  (∀ l, head logs = Some l → x <= date l) →
  let st' := foldl chart_step st logs in
  x <= last_date x logs
  ∧ cur_date st' = Some (last_date x logs)
  ∧ point_date <$> time_series st'
    = (point_date <$> time_series st) ++ seqZ (x + 1) (last_date x logs - x).
Proof.
  induction logs as [|l logs IH]; intros st x Hx Hs Hh; simpl.
  - rewrite seqZ_nil by (unfold last_date; simpl; lia). rewrite app_nil_r.
    unfold last_date. simpl. split; [lia|done].
  - apply Sorted_date_hour_inv in Hs as [Hs Hl].
    specialize (Hh l eq_refl).
    specialize (IH (chart_step st l) (date l)).
    rewrite chart_step_eq in IH |- *. cbn zeta in IH |- *. cbn [cur_date time_series] in IH.
    rewrite Hx in IH |- *. cbn [date_after days_added] in IH |- *.
    replace (Z.max x (date l)) with (date l) in IH |- * by lia.
    destruct (IH eq_refl Hs Hl) as (Hle & Hd & Hts).
    change (last_date x (l :: logs)) with (last_date (date l) logs).
    split; [lia|]. split; [done|].
    rewrite Hts. rewrite fmap_app. unfold new_points. rewrite <- list_fmap_compose.
    rewrite (list_fmap_ext _ id (seqZ (x + 1) (date l - x))) by done.
    rewrite list_fmap_id. rewrite <- app_assoc. f_equal.
    replace (last_date (date l) logs - x) with ((date l - x) + (last_date (date l) logs - date l)) by lia.
    rewrite seqZ_app by lia. do 2 f_equal. lia.
Qed.

Lemma chart_loop_monotone logs : ∀ st,
  Forall valid_log logs →
  StronglySorted point_le (time_series st) →
  Forall (within (control st) (treatment st)) (time_series st) →
  let st' := foldl chart_step st logs in
  StronglySorted point_le (time_series st')
  ∧ Forall (within (control st') (treatment st')) (time_series st').
Proof.
  induction logs as [|l logs IH]; intros st Hv Hs Hw; simpl; [done|].
  apply Forall_cons in Hv as [[_ Hc] Hv].
  apply IH; [done| |]; rewrite chart_step_eq; cbn zeta; cbn [time_series control treatment].
  - apply StronglySorted_app_2; [|done|].
    + intros p q Hp Hq. rewrite Forall_forall in Hw. specialize (Hw p Hp) as [Hw1 Hw2].
      unfold new_points in Hq. apply list_elem_of_fmap in Hq as (d & -> & _).
      rewrite accumulate_control, accumulate_treatment.
      split; simpl; case_bool_decide; lia.
    + generalize (days_added (cur_date st) (date l)). intros days.
      induction days as [|d days IHd]; simpl; constructor; [done|].
      apply Forall_fmap, Forall_true. intros d'. split; simpl; lia.
  - apply Forall_app. split.
    + eapply Forall_impl; [exact Hw|]. intros p [Hp1 Hp2].
      rewrite accumulate_control, accumulate_treatment.
      split; case_bool_decide; lia.
    + unfold new_points. apply Forall_fmap, Forall_true. intros d. split; simpl; lia.
Qed.

#[local] Instance date_hour_le_trans : Transitive date_hour_le.
Proof. intros a b c. unfold date_hour_le. lia. Qed.

Lemma column_snoc v pre l :
  sumZ (conversions <$> of_variant v (pre ++ [l]))
  = sumZ (conversions <$> of_variant v pre)
    + (if bool_decide (variant l = v) then conversions l else 0).
Proof.
  unfold of_variant. rewrite filter_app, fmap_app, sumZ_app. f_equal.
  rewrite filter_cons, filter_nil. case_decide; case_bool_decide; try done.
  rewrite fmap_cons, sumZ_cons. simpl. lia.
Qed.

Lemma taken_at_first_log_snoc pre l p :
  taken_at_first_log pre p → taken_at_first_log (pre ++ [l]) p.
Proof.
  intros (before & l0 & after & -> & H). exists before, l0, (after ++ [l]).
  split; [|done]. by rewrite <- app_assoc.
Qed.

Lemma chart_loop_totals rest : ∀ pre st,
  StronglySorted date_hour_le (pre ++ rest) →
  control st = sumZ (conversions <$> of_variant CONTROL pre) →
  treatment st = sumZ (conversions <$> of_variant TREATMENT pre) →
  match cur_date st with
  | None => pre = []
  | Some x => Forall (λ l, date l <= x) pre ∧ ∃ l, l ∈ pre ∧ date l = x
  end →
  Forall (taken_at_first_log pre) (time_series st) →
  Forall (taken_at_first_log (pre ++ rest)) (time_series (foldl chart_step st rest)).
Proof.
  induction rest as [|l rest IH]; intros pre st Hs Hc Ht Hd Hts; simpl.
  - by rewrite app_nil_r.
  - replace (pre ++ l :: rest) with ((pre ++ [l]) ++ rest) in Hs |- * by (by rewrite <- app_assoc).
    assert (Hpre : Forall (λ l', date l' <= date l) pre).
    { apply StronglySorted_app_1_l in Hs. apply StronglySorted_app in Hs as (Hle & _ & _).
      apply Forall_forall. intros l' Hl'. specialize (Hle l' l Hl' ltac:(left)).
      unfold date_hour_le in Hle. lia. }
    assert (Hc' : control (accumulate l st) = sumZ (conversions <$> of_variant CONTROL (pre ++ [l])))
      by (rewrite accumulate_control, column_snoc, Hc; done).
    assert (Ht' : treatment (accumulate l st) = sumZ (conversions <$> of_variant TREATMENT (pre ++ [l]))).
    { rewrite accumulate_treatment, column_snoc, Ht. f_equal.
      destruct (variant l); by repeat case_bool_decide. }
    apply IH; [done|rewrite chart_step_eq; done|rewrite chart_step_eq; done| |];
      rewrite chart_step_eq; cbn zeta; cbn [cur_date time_series].
    + split.
      * apply Forall_app. split; [|by repeat constructor; destruct (cur_date st); simpl; lia].
        eapply Forall_impl; [exact Hpre|]. intros l' Hl'. simpl in Hl'.
        destruct (cur_date st); simpl; lia.
      * destruct (cur_date st) as [x|] eqn:Ex; simpl.
        -- destruct Hd as (Hle & l0 & Hl0 & Hx).
           destruct (Z.max_spec x (date l)) as [[_ ->]|[Hxl ->]].
           ++ exists l. split; [|done]. apply elem_of_app. right. left.
           ++ exists l0. split; [|done]. apply elem_of_app. by left.
        -- exists l. split; [|done]. apply elem_of_app. right. left.
    + apply Forall_app. split.
      * eapply Forall_impl; [exact Hts|]. intros p. apply taken_at_first_log_snoc.
      * unfold new_points. apply Forall_fmap, Forall_forall. intros d Hd'.
        exists pre, l, []. cbn [point_date point_control point_treatment].
        split; [done|]. split; [|split; [|done]].
        -- destruct (cur_date st) as [x|]; simpl in Hd'.
           ++ apply elem_of_seqZ in Hd'. destruct Hd as [Hle _].
              eapply Forall_impl; [exact Hle|]. simpl. intros; lia.
           ++ by subst pre.
        -- destruct (cur_date st) as [x|]; simpl in Hd'.
           ++ apply elem_of_seqZ in Hd'. lia.
           ++ apply list_elem_of_singleton in Hd'. lia.
Qed.

(** Every point of the chart carries the conversions of the logs up to and
    including the first log dated its day or later. *)
Lemma chart_points_taken_at_first_log logs :
  Sorted date_hour_le logs → Forall (taken_at_first_log logs) (chart logs).
Proof.
  intros Hs. apply (Sorted_StronglySorted _) in Hs.
  by apply (chart_loop_totals logs [] chart_init).
Qed.

End ChartFacts.

(** ** The chart time series *)

Module ChartClaims.

Import QuerySet Progress Aux Spec Examples ChartFacts.

#[local] Instance date_hour_le_total : Total date_hour_le.
Proof. intros a b. unfold date_hour_le. lia. Qed.

(** The stable sort is one of the answers of the ordered query. *)
Lemma order_by_date_hour_ordered rows :
  ordered_by_date_hour rows (order_by_date_hour rows).
Proof.
  split.
  - apply merge_sort_Permutation.
  - apply (Sorted_merge_sort date_hour_le).
Qed.

Lemma chart_first_step l :
  chart_step chart_init l =
  {| time_series := new_points (control (accumulate l chart_init))
                      (treatment (accumulate l chart_init)) [date l];
     control := control (accumulate l chart_init);
     treatment := treatment (accumulate l chart_init);
     cur_date := Some (date l) |}.
Proof. by rewrite chart_step_eq. Qed.

(** C1, at two inputs on which the code and the claim differ. For two
    control rows on the same day with 1 and 2 conversions, the only point of
    the chart carries 1 conversion for that day, while the rows dated that
    day or before sum to 3: the point is appended when the first row of a
    day is read, and later rows of the day reach only later points. For
    rows on day 1 (1 conversion) and day 3 (5 conversions), the point of the
    day between them carries 6 conversions, while the rows up to that day
    sum to 1: the row of day 3 is added to the totals before the points of
    the days before it are appended. *)
Theorem chart_point_is_taken_at_first_row_of_day :
  chart (order_by_date_hour rows_same_day) = [ point 737791 1 0 ]
  ∧ cumulative CONTROL 737791 rows_same_day = 3
  ∧ chart (order_by_date_hour rows_gap)
    = [ point 737791 1 0; point 737792 6 0; point 737793 6 0 ]
  ∧ cumulative CONTROL 737792 rows_gap = 1.
Proof. repeat split; vm_compute; reflexivity. Qed.

(** C2. For any answer of the ordered query over rows with non-negative
    counts: without rows the time series is empty; with rows its dates are
    exactly the calendar days from the date of the first log to the date of
    the last log, each once and in ascending order; and neither cumulative
    column decreases from one point to the next. *)
Theorem chart_one_point_per_day rows logs :
  ordered_by_date_hour rows logs →
  Forall valid_log rows →
  (rows = [] → chart logs = [])
  ∧ (∀ first lst, head logs = Some first → last logs = Some lst →
       point_date <$> chart logs = seqZ (date first) (date lst - date first + 1))
  ∧ Sorted point_le (chart logs).
Proof.
  intros [Hperm Hsorted] Hvalid. split; [|split].
  - intros ->. apply Permutation_nil_r in Hperm as ->. reflexivity.
  - intros first lst Hfirst Hlast. destruct logs as [|l logs]; [done|].
    simplify_eq/=. apply Sorted_date_hour_inv in Hsorted as [Hsorted Hhead].
    unfold chart, chart_loop. simpl.
    pose proof (chart_loop_dates logs (chart_step chart_init first) (date first)) as H.
    rewrite chart_first_step in H |- *. cbn [cur_date time_series] in H.
    destruct (H eq_refl Hsorted Hhead) as (Hle & _ & ->).
    assert (Hl : last_date (date first) logs = date lst).
    { change (last_date (date first) logs) with (last_date 0 (first :: logs)).
      by apply last_date_last. }
    rewrite Hl in Hle |- *. unfold new_points. simpl.
    rewrite (seqZ_cons (date first)) by lia. do 2 f_equal; lia.
  - apply StronglySorted_Sorted.
    apply (chart_loop_monotone logs chart_init); [|constructor|constructor].
    by rewrite Hperm.
Qed.

Lemma chart_one_point_per_day_witness :
  ordered_by_date_hour rows_mixed (order_by_date_hour rows_mixed)
  ∧ Forall valid_log rows_mixed
  ∧ (rows_mixed = [] → chart (order_by_date_hour rows_mixed) = [])
  ∧ (∀ first lst,
       head (order_by_date_hour rows_mixed) = Some first →
       last (order_by_date_hour rows_mixed) = Some lst →
       point_date <$> chart (order_by_date_hour rows_mixed)
       = seqZ (date first) (date lst - date first + 1))
  ∧ Sorted point_le (chart (order_by_date_hour rows_mixed)).
Proof.
  assert (Hv : Forall valid_log rows_mixed)
    by (repeat constructor; simpl; lia).
  split; [apply order_by_date_hour_ordered|]. split; [exact Hv|].
  exact (chart_one_point_per_day rows_mixed (order_by_date_hour rows_mixed)
           (order_by_date_hour_ordered rows_mixed) Hv).
Defined.

(** The chart of five rows over five days, two of them without logs. *)
Lemma chart_rows_mixed :
  chart (order_by_date_hour rows_mixed)
  = [ point 737791 1 0; point 737792 1 5; point 737793 1 5;
      point 737794 1 5; point 737795 1 5 ].
Proof. vm_compute. reflexivity. Qed.

End ChartClaims.

(** ** Aggregates, percentages and the completion estimate *)

Module StatsClaims.

Import QuerySet Progress Aux Spec Examples PyFacts SumFacts.

Lemma or_0_Sum field q rows :
  or_0 (Sum field q rows) = sumZ (field <$> filter (λ l, Is_true (q l)) rows).
Proof.
  unfold Sum. destruct (filter _ rows) as [|l matching]; [done|].
  generalize (sumZ (field <$> l :: matching)). intros v. unfold or_0, Py.truthy.
  by destruct (Z.eqb_spec v 0) as [->|].
Qed.

Lemma filter_is_variant v rows :
  filter (λ l, Is_true (is_variant v l)) rows = of_variant v rows.
Proof.
  unfold of_variant, is_variant. apply list_filter_iff. intros l.
  by rewrite bool_decide_spec.
Qed.

Lemma aggregate_variant v field rows :
  or_0 (Sum field (is_variant v) rows) = sumZ (field <$> of_variant v rows).
Proof. by rewrite or_0_Sum, filter_is_variant. Qed.

Lemma sumZ_by_variant field rows :
  sumZ (field <$> of_variant CONTROL rows) + sumZ (field <$> of_variant TREATMENT rows)
  = sumZ (field <$> rows).
Proof.
  unfold of_variant. induction rows as [|l rows IH]; [done|].
  rewrite !filter_cons, fmap_cons, sumZ_cons, <- IH.
  destruct (variant l); repeat case_decide; try done;
    rewrite ?fmap_cons, ?sumZ_cons; lia.
Qed.

Lemma aggregates_are_sums rows :
  control_participants rows = sumZ (participants <$> of_variant CONTROL rows)
  ∧ control_conversions rows = sumZ (conversions <$> of_variant CONTROL rows)
  ∧ treatment_participants rows = sumZ (participants <$> of_variant TREATMENT rows)
  ∧ treatment_conversions rows = sumZ (conversions <$> of_variant TREATMENT rows).
Proof.
  unfold control_participants, control_conversions, treatment_participants,
    treatment_conversions, aggregate. cbn [stats_control_participants
    stats_control_conversions stats_treatment_participants stats_treatment_conversions].
  by rewrite !aggregate_variant.
Qed.

(** C5. The sample size of the progress view is the sum of [participants]
    over all hourly logs, each per-variant aggregate is the sum over the
    rows of its variant, and without any row the database's NULL sums are
    read as 0: every aggregate and the sample size are 0. *)
Theorem current_sample_size_is_sum_of_participants rows :
  current_sample_size rows = sumZ (participants <$> rows)
  ∧ (control_participants rows = sumZ (participants <$> of_variant CONTROL rows)
     ∧ control_conversions rows = sumZ (conversions <$> of_variant CONTROL rows)
     ∧ treatment_participants rows = sumZ (participants <$> of_variant TREATMENT rows)
     ∧ treatment_conversions rows = sumZ (conversions <$> of_variant TREATMENT rows))
  ∧ (aggregate [] = {| stats_control_participants := None;
                       stats_control_conversions := None;
                       stats_treatment_participants := None;
                       stats_treatment_conversions := None |}
     ∧ control_participants [] = 0 ∧ control_conversions [] = 0
     ∧ treatment_participants [] = 0 ∧ treatment_conversions [] = 0
     ∧ current_sample_size [] = 0).
Proof.
  pose proof (aggregates_are_sums rows) as H.
  split; [|split; [exact H|by repeat split]].
  destruct H as (Hc & _ & Ht & _). unfold current_sample_size.
  rewrite Hc, Ht. apply sumZ_by_variant.
Qed.

Lemma as_percent_no_zero_division q : as_percent q ≠ Raise ZeroDivisionError.
Proof.
  unfold as_percent, Py.float_mul_int. rewrite float_of_int_100. cbn [mbind result_bind].
  by destruct (Py.float_mul q _).
Qed.

Lemma int_percent_rate a b : int_percent a b = Py.int_truediv a b ≫= as_percent.
Proof. reflexivity. Qed.

Lemma conversions_percent_rate c p :
  conversions_percent c p = conversion_rate c p ≫= as_percent.
Proof.
  unfold conversions_percent, conversion_rate, Py.truthy.
  destruct (Z.eqb_spec p 0) as [->|Hp]; [reflexivity|]. apply int_percent_rate.
Qed.

Lemma render_context_Ok ab_test rows estimate series ctx :
  render_context ab_test rows estimate series = Ok ctx →
  int_percent (current_sample_size rows) (sample_size ab_test)
    = Ok (ctx_current_sample_size_percent ctx)
  ∧ conversions_percent (control_conversions rows) (control_participants rows)
    = Ok (ctx_control_conversions_percent ctx)
  ∧ conversions_percent (treatment_conversions rows) (treatment_participants rows)
    = Ok (ctx_treatment_conversions_percent ctx).
Proof.
  unfold render_context.
  destruct (int_percent _ _) as [a|]; [|done].
  destruct (conversions_percent (control_conversions rows) _) as [b|]; [|done].
  destruct (conversions_percent (treatment_conversions rows) _) as [c|]; [|done].
  cbn [mbind result_bind]. by intros [= <-].
Qed.

(** C6. The percentage the view shows for a variant is the spec's
    conversion rate (conversions over participants as a float, 0 when
    there are no participants) times 100, cut to an integer; with no
    participants it is 0; and it never raises [ZeroDivisionError]. In the
    template context this holds for both variants, for their sums of
    conversions and of participants over the hourly logs. *)
Theorem conversions_percent_is_conversion_rate c p :
  conversions_percent c p = conversion_rate c p ≫= as_percent
  ∧ conversions_percent c 0 = Ok 0
  ∧ conversions_percent c p ≠ Raise ZeroDivisionError
  ∧ (∀ ab_test rows estimate series ctx,
       render_context ab_test rows estimate series = Ok ctx →
       Ok (ctx_control_conversions_percent ctx)
       = conversion_rate (sumZ (conversions <$> of_variant CONTROL rows))
           (sumZ (participants <$> of_variant CONTROL rows)) ≫= as_percent
       ∧ Ok (ctx_treatment_conversions_percent ctx)
         = conversion_rate (sumZ (conversions <$> of_variant TREATMENT rows))
             (sumZ (participants <$> of_variant TREATMENT rows)) ≫= as_percent).
Proof.
  split; [apply conversions_percent_rate|]. split; [reflexivity|]. split.
  - rewrite conversions_percent_rate. unfold conversion_rate.
    destruct (Z.eqb_spec p 0) as [->|Hp]; [done|].
    unfold Py.int_truediv. destruct (Z.eqb_spec p 0) as [|_]; [done|].
    destruct (Py.is_infinite _); [done|]. cbn [mbind result_bind].
    apply as_percent_no_zero_division.
  - intros ab_test rows estimate series ctx (_ & Hc & Ht)%render_context_Ok.
    destruct (aggregates_are_sums rows) as (Hcp & Hcc & Htp & Htc).
    rewrite <- Hc, <- Ht, !conversions_percent_rate. by rewrite Hcp, Hcc, Htp, Htc.
Qed.

End StatsClaims.

(** ** No arithmetic error in the template context *)

Module TotalityClaims.

Import QuerySet Progress Aux Spec Examples PyFacts StatsClaims.

Lemma int_percent_total a b :
  b ≠ 0 → Z.abs a < 2 ^ 1000 → ∃ n, int_percent a b = Ok n.
Proof.
  intros Hb Ha.
  destruct (int_truediv_below 1000 a b Hb Ha ltac:(lia)) as (q & Hq & Hbelow).
  destruct (float_mul_int_100_below (1000 + 1) q Hbelow ltac:(lia) ltac:(lia))
    as (y & Hy & Hbelow').
  destruct (int_of_float_below _ y Hbelow') as (n & Hn).
  exists n. unfold int_percent. rewrite Hq. cbn [mbind result_bind].
  rewrite Hy. cbn [mbind result_bind]. exact Hn.
Qed.

Lemma int_percent_zero_division a : int_percent a 0 = Raise ZeroDivisionError.
Proof. reflexivity. Qed.

Lemma conversions_percent_total c p :
  Z.abs c < 2 ^ 1000 → ∃ n, conversions_percent c p = Ok n ∧ (p = 0 → n = 0).
Proof.
  intros Hc. unfold conversions_percent, Py.truthy.
  destruct (Z.eqb_spec p 0) as [->|Hp]; simpl; [by exists 0|].
  destruct (int_percent_total c p Hp Hc) as (n & Hn). by exists n.
Qed.

(** C10. For hourly logs whose sums are in the range of a float, the
    statistics of the template context are computed without any exception
    exactly when [sample_size] is not zero: the two conversion percentages
    never fail and are 0 for a variant without participants, and
    [current_sample_size / sample_size] is the one division that can fail;
    with a [sample_size] of zero it raises [ZeroDivisionError]. *)
Theorem render_context_total_iff_sample_size_nonzero ab_test rows estimate series :
  float_sized rows →
  (sample_size ab_test ≠ 0 ↔ ∃ ctx, render_context ab_test rows estimate series = Ok ctx)
  ∧ (sample_size ab_test = 0 →
     render_context ab_test rows estimate series = Raise ZeroDivisionError)
  ∧ (∃ control_percent treatment_percent,
       conversions_percent (control_conversions rows) (control_participants rows)
         = Ok control_percent
       ∧ conversions_percent (treatment_conversions rows) (treatment_participants rows)
         = Ok treatment_percent
       ∧ (control_participants rows = 0 → control_percent = 0)
       ∧ (treatment_participants rows = 0 → treatment_percent = 0)).
Proof.
  intros (Hcss & Hcc & Htc).
  destruct (conversions_percent_total _ (control_participants rows) Hcc) as (cp & Hcp & Hcp0).
  destruct (conversions_percent_total _ (treatment_participants rows) Htc) as (tp & Htp & Htp0).
  assert (Hzero : sample_size ab_test = 0 →
                  render_context ab_test rows estimate series = Raise ZeroDivisionError).
  { intros H0. unfold render_context. by rewrite H0, int_percent_zero_division. }
  split; [|split; [exact Hzero|by exists cp, tp]].
  split.
  - intros Hss. destruct (int_percent_total _ _ Hss Hcss) as (n & Hn).
    unfold render_context. rewrite Hn, Hcp, Htp. cbn [mbind result_bind]. eauto.
  - intros [ctx Hctx] H0. rewrite (Hzero H0) in Hctx. done.
Qed.

Lemma render_context_total_iff_sample_size_nonzero_witness :
  float_sized rows_eighty
  ∧ (sample_size (test_with RUNNING 100) ≠ 0
     ↔ ∃ ctx, render_context (test_with RUNNING 100) rows_eighty None [] = Ok ctx).
Proof.
  assert (H : float_sized rows_eighty) by (repeat split; vm_compute; reflexivity).
  split; [exact H|].
  exact (proj1 (render_context_total_iff_sample_size_nonzero
                  (test_with RUNNING 100) rows_eighty None [] H)).
Defined.

(** The context of the spec's example: 80 participants of 100, 20% and 50%. *)
Lemma render_context_eighty :
  (λ ctx, (ctx_current_sample_size ctx, ctx_current_sample_size_percent ctx,
           ctx_control_conversions_percent ctx, ctx_treatment_conversions_percent ctx))
    <$> render_context (test_with RUNNING 100) rows_eighty None []
  = Ok (80, 80, 20, 50).
Proof. vm_compute. reflexivity. Qed.

(** The quotient is cut after the multiplication by 100 in binary64: 29
    conversions of 100 participants are shown as 28%. *)
Lemma conversions_percent_29_of_100 : conversions_percent 29 100 = Ok 28.
Proof. vm_compute. reflexivity. Qed.

End TotalityClaims.

(** ** The estimated completion date *)

Module EstimateClaims.

Import QuerySet Progress Aux Spec Examples.

(** The estimate is absent, and nothing is raised, unless the test is
    running, has participants and has run for a whole day. *)
Lemma estimated_completion_date_absent clock ab_test css :
  status ab_test ≠ RUNNING ∨ css = 0 ∨ running_duration_days clock <= 0 →
  estimated_completion_date clock ab_test css = Ok None.
Proof.
  intros H. unfold estimated_completion_date, Py.truthy.
  case_bool_decide; simpl; [|done].
  destruct (Z.eqb_spec css 0); simpl; [done|].
  destruct (Z.ltb_spec 0 (running_duration_days clock)); [|done].
  destruct H as [?|[?|?]]; [done|done|lia].
Qed.

(** A date is produced only for a running test with participants that has
    run for a whole day, and it is today plus the whole days of the
    timedelta made from the float quotients. *)
Lemma estimated_completion_date_present clock ab_test css d :
  estimated_completion_date clock ab_test css = Ok (Some d) →
  status ab_test = RUNNING ∧ css ≠ 0 ∧ 0 < running_duration_days clock
  ∧ ∃ rate remaining delta,
      Py.int_truediv css (running_duration_days_again clock) = Ok rate
      ∧ Py.int_truediv_float (sample_size ab_test - css) rate = Ok remaining
      ∧ Datetime.timedelta_days remaining = Ok delta
      ∧ d = today clock + delta
      ∧ Datetime.valid_date d.
Proof.
  unfold estimated_completion_date, Py.truthy.
  case_bool_decide; simpl; [|done].
  destruct (Z.eqb_spec css 0); simpl; [done|].
  destruct (Z.ltb_spec 0 (running_duration_days clock)); [|done].
  destruct (Py.int_truediv css _) as [rate|] eqn:E1; [|done]. cbn [mbind result_bind].
  destruct (Py.int_truediv_float _ rate) as [remaining|] eqn:E2; [|done].
  cbn [mbind result_bind].
  destruct (Datetime.timedelta_days remaining) as [delta|] eqn:E3; [|done].
  cbn [mbind result_bind]. unfold Datetime.date_add. cbn zeta.
  destruct (_ && _) eqn:E; [|done]. cbn [mbind result_bind]. intros [= <-].
  apply andb_true_iff in E as [?%Z.leb_le ?%Z.leb_le].
  repeat split; try done. exists rate, remaining, delta.
  unfold Datetime.valid_date. by repeat split.
Qed.

(** C4, at an input on which the code and the claim differ. The test is
    running, one participant has been logged and the test has run for 30
    whole days, so the claim promises an estimate; with a sample size of
    100001 the estimate lies 3000000 days ahead, after [date.max], and both
    the estimate and the whole view raise [OverflowError]. With 80
    participants of 100 the estimate is 7 days ahead. *)
Theorem estimated_completion_date_overflows :
  (status (test_with RUNNING 100001) = RUNNING
   ∧ current_sample_size rows_one_participant = 1
   ∧ 0 < running_duration_days clock_day_30)
  ∧ estimated_completion_date clock_day_30 (test_with RUNNING 100001)
      (current_sample_size rows_one_participant) = Raise OverflowError
  ∧ progress_get clock_day_30 (test_with RUNNING 100001) rows_one_participant
    = Raise OverflowError
  ∧ estimated_completion_date clock_day_30 (test_with RUNNING 100)
      (current_sample_size rows_eighty) = Ok (Some (today clock_day_30 + 7)).
Proof. repeat split; vm_compute; reflexivity. Qed.

End EstimateClaims.

(** ** The actions of the progress page *)

Module ActionClaims.

Import ProgressActions Spec Examples.

Section Actions.

Context `{methods : AbTestMethods}.

Ltac no_error_added :=
  first [ eexists; split; [reflexivity|by repeat constructor]
        | exists []; split; [by rewrite app_nil_r|constructor] ].

Ltac applied a := left; exists a; do 3 (split; [done|]); no_error_added.

Ltac turned_down := split; [done|by eexists].

Lemma status_cases (s : Status) :
  (bool_decide (s ∈ [DRAFT; PAUSED])
   = match s with DRAFT | PAUSED => true | _ => false end)
  ∧ (bool_decide (s ∈ [DRAFT; RUNNING; PAUSED])
     = match s with FINISHED => false | _ => true end)
  ∧ (bool_decide (s = RUNNING) = match s with RUNNING => true | _ => false end).
Proof. by destruct s. Qed.

(** C3. Whatever the request posts and whatever the status of the test:
    either a method of the test is called, and then for an action whose key
    was posted and for which the status is legal (start and restart from
    Draft or Paused, pause from Running, end from Draft, Running or
    Paused), without an error message; or the test is left as it was and
    one error message is added. A request posting the key of one action
    has that action applied if the status is legal for it and is turned
    down otherwise; on a Finished test every request is turned down; a
    request posting no known key is turned down as an unknown action. The
    view answers a POST with the redirect to the page editor. *)
Theorem progress_post_applies_legal_actions_only request ab_test msgs :
  let after := progress_post request ab_test msgs in
  ((∃ a, in_POST (action_key a) request = true
         ∧ legal a (status ab_test) = true
         ∧ after.1 = apply_action a ab_test
         ∧ ∃ added, after.2 = msgs ++ added ∧ Forall (λ m, m.1 = SUCCESS) added)
   ∨ rejected ab_test msgs after)
  ∧ (∀ a, in_POST (action_key a) request = true →
          (∀ b, in_POST (action_key b) request = true → b = a) →
          if legal a (status ab_test)
          then after.1 = apply_action a ab_test
               ∧ ∃ added, after.2 = msgs ++ added ∧ Forall (λ m, m.1 = SUCCESS) added
          else rejected ab_test msgs after)
  ∧ (status ab_test = FINISHED → rejected ab_test msgs after)
  ∧ ((∀ a, in_POST (action_key a) request = false) →
     after = (ab_test, msgs ++ [(ERROR, "Unknown action")]))
  ∧ (∀ clock rows page, method request = "POST" →
       progress clock rows request page ab_test msgs
       = (after.1, after.2, Ok (Redirect "wagtailadmin_pages:edit" (page_id page)))).
Proof.
  cbn zeta. unfold progress_post, rejected.
  destruct (status_cases (status ab_test)) as (-> & -> & ->).
  split; [|split; [|split; [|split]]].
  - destruct (in_POST "action-start-ab-test" request) eqn:E1,
      (in_POST "action-restart-ab-test" request) eqn:E2,
      (in_POST "action-end-ab-test" request) eqn:E3,
      (in_POST "action-pause-ab-test" request) eqn:E4,
      (status ab_test) eqn:Es; cbn [orb fst snd];
      first [ right; turned_down | applied Start | applied Restart
            | applied End_test | applied Pause ].
  - intros a Ha Honly.
    assert (Hkeys : ∀ b, in_POST (action_key b) request = bool_decide (b = a)).
    { intros b. case_bool_decide as Hb; [by subst|].
      destruct (in_POST (action_key b) request) eqn:E; [|done]. by apply Honly in E. }
    pose proof (Hkeys Start) as H1. pose proof (Hkeys Restart) as H2.
    pose proof (Hkeys End_test) as H3. pose proof (Hkeys Pause) as H4.
    cbn [action_key] in H1, H2, H3, H4. rewrite H1, H2, H3, H4.
    destruct a, (status ab_test); repeat case_bool_decide; try done; cbn;
      first [ turned_down | split; [done|no_error_added] ].
  - intros ->. repeat destruct (in_POST _ _); cbn; turned_down.
  - intros Hnone.
    pose proof (Hnone Start) as H1. pose proof (Hnone Restart) as H2.
    pose proof (Hnone End_test) as H3. pose proof (Hnone Pause) as H4.
    cbn [action_key] in H1, H2, H3, H4. by rewrite H1, H2, H3, H4.
  - intros clock rows page Hpost. unfold progress.
    rewrite bool_decide_eq_true_2 by done. unfold progress_post.
    destruct (status_cases (status ab_test)) as (-> & -> & ->).
    by repeat (destruct (in_POST _ _); cbn [orb]); destruct (status ab_test).
Qed.

End Actions.

(** The handler on four requests, with the methods of the spec: a pause of a
    running test, an end of a finished test, a start of a running test that
    also posts the end key, and a post without any action key. *)
Lemma progress_post_examples :
  progress_post (methods := spec_methods)
    (post editor {[ "action-pause-ab-test" := "1" ]}) (test_with RUNNING 100) []
  = (test_with PAUSED 100, [])
  ∧ progress_post (methods := spec_methods)
      (post editor {[ "action-end-ab-test" := "1" ]}) (test_with FINISHED 100) []
    = (test_with FINISHED 100, [ (ERROR, "The A/B test has already ended.") ])
  ∧ progress_post (methods := spec_methods)
      (post editor {[ "action-start-ab-test" := "1"; "action-end-ab-test" := "1" ]})
      (test_with RUNNING 100) []
    = (test_with RUNNING 100,
       [ (ERROR, "The A/B test must be in draft or paused in order to be started.") ])
  ∧ progress_post (methods := spec_methods)
      (post editor {[ "csrfmiddlewaretoken" := "x" ]}) (test_with DRAFT 100) []
    = (test_with DRAFT 100, [ (ERROR, "Unknown action") ]).
Proof. repeat split; vm_compute; reflexivity. Qed.

End ActionClaims.

(** ** The checks before an A/B test is created *)

Module CreateClaims.

Import Create Spec Examples.

Lemma find_is_Some {A} (f : A → bool) (l : list A) :
  is_Some (find f l) ↔ ∃ x, x ∈ l ∧ f x = true.
Proof.
  induction l as [|y l IH]; simpl.
  - split; [by intros [? ?]|]. intros (x & Hx & _). by apply elem_of_nil in Hx.
  - destruct (f y) eqn:E.
    + split; [|by eauto]. intros _. exists y. split; [left|done].
    + rewrite IH. split; intros (x & Hx & Hf).
      * exists x. split; [by right|done].
      * apply elem_of_cons in Hx as [->|Hx]; [congruence|eauto].
Qed.

(** With the manager of the spec, a page has a current test exactly when
    one of its tests is Draft, Running or Paused. *)
Lemma spec_manager_current page s :
  has_current_test (manager := spec_manager) page s ↔ has_open_test page s.
Proof.
  unfold has_current_test, spec_manager, current_for_page.
  rewrite find_is_Some. unfold has_open_test, is_current.
  split; intros (t & Ht & H); exists t; (split; [done|]).
  - apply andb_true_iff in H as [Hp%bool_decide_eq_true Hs%bool_decide_eq_true]. done.
  - destruct H as [Hp Hs]. by rewrite !bool_decide_eq_true_2.
Qed.

Lemma spec_manager_finds_open_tests : finds_open_tests spec_manager.
Proof.
  intros page tests Hnone u Hu Hp. unfold spec_manager, current_for_page in Hnone.
  destruct (is_current u) eqn:E; [|done].
  assert (H : is_Some (find (λ t, bool_decide (Model.page t = page_id page) && is_current t)
                         tests)).
  { apply find_is_Some. exists u. split; [done|]. by rewrite bool_decide_eq_true_2. }
  rewrite Hnone in H. by destruct H.
Qed.

Section Checks.

Context `{manager : AbTestManager} {C : Type}.

Lemma add_ab_test_checks_denied request page s :
  permitted request page = false →
  add_ab_test_checks (C := C) request page s = (Raise PermissionDenied, s).
Proof.
  unfold permitted, add_ab_test_checks. intros H.
  destruct (can_edit _ _); [|done]. simpl in H. by rewrite H.
Qed.

Lemma add_ab_test_checks_permitted request page s :
  permitted request page = true →
  add_ab_test_checks (C := C) request page s =
  if bool_decide (has_current_test page s)
  then (Ok (Some (Redirect "wagtailadmin_pages:edit" (page_id page))),
        with_error "This page already has a running A/B test" s)
  else if negb (live page) || negb (has_unpublished_changes page)
  then (Ok (Some (Redirect "wagtailadmin_pages:edit" (page_id page))),
        with_error "To run an A/B test on this page, it must be live with draft changes." s)
  else (Ok None, s).
Proof.
  unfold permitted, add_ab_test_checks. intros [-> ->]%andb_true_iff.
  unfold mbind, mret, View_bind, View_ret, messages_error, get_current_for_page.
  cbn. destruct (bool_decide _); [done|]. by destruct (negb _ || _).
Qed.

End Checks.

Section Creation.

Context `{methods : AbTestMethods} `{manager : AbTestManager}
  `{validation : FormValidation}.

Lemma add_form_found request id page s :
  lookup_page id s = Some page →
  add_form request id s =
  match add_ab_test_checks (C := FormContext) request page s with
  | (Ok (Some response), s') => (Ok response, s')
  | (Ok None, s') =>
      (if bool_decide (method request = "POST") then
         match cleaned_data (POST request) with
         | Some data =>
             form_save data page (latest_revision page) (user request);;
             (if in_POST "start" request then start_saved else mret ());;
             mret (Redirect "wagtailadmin_pages:edit" (page_id page))
         | None =>
             mret (Render "wagtail_ab_testing/add_form.html" (page, Some (POST request)))
         end
       else mret (Render "wagtail_ab_testing/add_form.html" (page, None))) s'
  | (Raise e, s') => (Raise e, s')
  end.
Proof.
  intros Hpage. unfold add_form, get_object_or_404.
  unfold mbind at 1 2. unfold View_bind at 1 2. rewrite Hpage.
  destruct (add_ab_test_checks request page s) as [[[response|]|e] s']; done.
Qed.

(** C8. When the page exists and the user may not edit it, or may not add
    A/B tests, the checks and the view raise [PermissionDenied] and leave
    the site as it was: no test is created and no message is added. *)
Theorem add_form_requires_both_permissions request id page s :
  lookup_page id s = Some page →
  can_edit (user request) page = false
  ∨ has_perm (user request) "wagtail_ab_testing.add_abtest" = false →
  add_ab_test_checks (C := FormContext) request page s = (Raise PermissionDenied, s)
  ∧ add_form request id s = (Raise PermissionDenied, s).
Proof.
  intros Hpage Hperm.
  assert (H : permitted request page = false).
  { unfold permitted. destruct Hperm as [->| ->]; [done|by rewrite andb_false_r]. }
  rewrite (add_form_found _ _ _ _ Hpage), add_ab_test_checks_denied by done. done.
Qed.

(** C7, amended. For a page that already has a current test (the test
    [get_current_for_page] finds: with the manager of the spec, a test in
    Draft, Running or Paused), no request creates a test, so at most one
    current test per page stays true; a request of a user who may edit the
    page and add A/B tests is answered with the error message that the page
    already has a running test and the redirect to the page editor; a
    request of any other user raises [PermissionDenied]. *)
Theorem add_form_rejects_page_with_current_test request id page s :
  lookup_page id s = Some page →
  has_current_test page s →
  ab_tests (add_form request id s).2 = ab_tests s
  ∧ (one_current_per_page s → one_current_per_page (add_form request id s).2)
  ∧ (permitted request page = true →
     add_form request id s
     = (Ok (Redirect "wagtailadmin_pages:edit" (page_id page)),
        with_error "This page already has a running A/B test" s))
  ∧ (permitted request page = false →
     add_form request id s = (Raise PermissionDenied, s)).
Proof.
  intros Hpage Hcur. rewrite (add_form_found _ _ _ _ Hpage).
  destruct (permitted request page) eqn:Hperm.
  - rewrite add_ab_test_checks_permitted by done.
    rewrite bool_decide_eq_true_2 by done. by repeat split.
  - rewrite add_ab_test_checks_denied by done. by repeat split.
Qed.

(** C9, amended. For a page that is not live or has no unpublished
    changes, no request creates a test; a request of a user who may edit
    the page and add A/B tests is answered with an error message and the
    redirect to the page editor (the message about live pages with draft
    changes when the page has no current test); a request of any other
    user raises [PermissionDenied]. *)
Theorem add_form_rejects_page_not_ready request id page s :
  lookup_page id s = Some page →
  live page = false ∨ has_unpublished_changes page = false →
  ab_tests (add_form request id s).2 = ab_tests s
  ∧ (permitted request page = true →
     ∃ text, add_form request id s
             = (Ok (Redirect "wagtailadmin_pages:edit" (page_id page)), with_error text s))
  ∧ (permitted request page = true → ¬ has_current_test page s →
     add_form request id s
     = (Ok (Redirect "wagtailadmin_pages:edit" (page_id page)),
        with_error "To run an A/B test on this page, it must be live with draft changes." s))
  ∧ (permitted request page = false →
     add_form request id s = (Raise PermissionDenied, s)).
Proof.
  intros Hpage Hready. rewrite (add_form_found _ _ _ _ Hpage).
  assert (Hn : negb (live page) || negb (has_unpublished_changes page) = true).
  { destruct Hready as [->| ->]; [done|apply orb_true_r]. }
  destruct (permitted request page) eqn:Hperm.
  - rewrite add_ab_test_checks_permitted by done. rewrite Hn.
    case_bool_decide as Hcur.
    + repeat split; try done. by eexists.
    + repeat split; try done. by eexists.
  - rewrite add_ab_test_checks_denied by done. by repeat split.
Qed.

Lemma one_current_per_page_snoc l t' ms ps :
  one_current_per_page {| pages := ps; ab_tests := l; messages := ms |} →
  (∀ u, u ∈ l → Model.page u = Model.page t' → is_current u = false) →
  one_current_per_page {| pages := ps; ab_tests := l ++ [t']; messages := ms |}.
Proof.
  unfold one_current_per_page. cbn [ab_tests]. intros Hinv Hnew i j t u Hi Hj Hp Ht Hu.
  apply lookup_snoc_Some in Hi as [[Hil Hi]|[-> <-]];
    apply lookup_snoc_Some in Hj as [[Hjl Hj]|[-> <-]].
  - by apply (Hinv i j t u).
  - apply list_elem_of_lookup_2 in Hi. rewrite (Hnew t Hi Hp) in Ht. done.
  - apply list_elem_of_lookup_2 in Hj. rewrite (Hnew u Hj (eq_sym Hp)) in Hu. done.
  - done.
Qed.

(** Whatever the request, [add_form] keeps at most one current test per
    page, provided [start] leaves the page of a test alone. *)
Lemma add_form_keeps_one_current_per_page request id s :
  finds_open_tests manager →
  (∀ t, Model.page (start t) = Model.page t) →
  one_current_per_page s →
  one_current_per_page (add_form request id s).2.
Proof.
  intros Hmanager Hstart Hinv. destruct (lookup_page id s) as [page|] eqn:Hpage.
  2:{ unfold add_form, get_object_or_404. unfold mbind at 1. unfold View_bind at 1.
      by rewrite Hpage. }
  rewrite (add_form_found _ _ _ _ Hpage).
  destruct (permitted request page) eqn:Hperm.
  2:{ by rewrite add_ab_test_checks_denied. }
  rewrite add_ab_test_checks_permitted by done.
  case_bool_decide as Hcur; [done|].
  destruct (negb (live page) || negb (has_unpublished_changes page)); [done|].
  case_bool_decide; [|done].
  destruct (cleaned_data (POST request)) as [data|]; [|done].
  assert (Hnone : ∀ u, u ∈ ab_tests s → Model.page u = page_id page → is_current u = false).
  { apply Hmanager. unfold has_current_test in Hcur.
    by destruct (current_for_page page (ab_tests s)) as [t|]; [destruct Hcur|]. }
  destruct s as [ps l ms]. cbn [ab_tests] in Hnone.
  unfold mbind, mret, View_bind, View_ret, form_save, start_saved. cbn [ab_tests pages messages].
  destruct (in_POST "start" request); cbn [snd ab_tests pages messages].
  - rewrite length_app. cbn [length]. replace (pred (length l + 1)) with (length l + 0)%nat by lia.
    rewrite alter_app_r. cbn [alter list_alter].
    apply one_current_per_page_snoc; [done|]. intros u Hu Hp. apply Hnone; [done|].
    by rewrite Hp, Hstart.
  - apply one_current_per_page_snoc; [done|]. intros u Hu Hp. by apply Hnone.
Qed.

End Creation.

Lemma add_form_requires_both_permissions_witness :
  lookup_page 1 site = Some home
  ∧ (can_edit (user (post visitor ∅)) home = false
     ∨ has_perm (user (post visitor ∅)) "wagtail_ab_testing.add_abtest" = false)
  ∧ add_ab_test_checks (manager := spec_manager) (C := FormContext) (post visitor ∅) home site
    = (Raise PermissionDenied, site)
  ∧ add_form (methods := spec_methods) (manager := spec_manager)
      (validation := name_required)
      (post visitor ∅) 1 site
    = (Raise PermissionDenied, site).
Proof.
  assert (H1 : lookup_page 1 site = Some home) by reflexivity.
  assert (H2 : can_edit (user (post visitor ∅)) home = false
               ∨ has_perm (user (post visitor ∅)) "wagtail_ab_testing.add_abtest" = false)
    by (left; vm_compute; reflexivity).
  split; [exact H1|]. split; [exact H2|].
  exact (add_form_requires_both_permissions (methods := spec_methods)
           (manager := spec_manager) (validation := name_required)
           (post visitor ∅) 1 home site H1 H2).
Defined.

Lemma home_has_current_test : has_current_test (manager := spec_manager) home site.
Proof.
  apply spec_manager_current. exists (test_with RUNNING 100).
  repeat split; [left|right; left].
Qed.

Lemma add_form_rejects_page_with_current_test_witness :
  lookup_page 1 site = Some home
  ∧ has_current_test (manager := spec_manager) home site
  ∧ add_form (methods := spec_methods) (manager := spec_manager)
      (validation := name_required)
      (post editor {[ "name" := "Hero" ]}) 1 site
    = (Ok (Redirect "wagtailadmin_pages:edit" 1),
       with_error "This page already has a running A/B test" site).
Proof.
  assert (H1 : lookup_page 1 site = Some home) by reflexivity.
  split; [exact H1|]. split; [exact home_has_current_test|].
  refine (proj1 (proj2 (proj2
    (add_form_rejects_page_with_current_test (methods := spec_methods)
       (manager := spec_manager) (validation := name_required)
       (post editor {[ "name" := "Hero" ]}) 1 home site H1 home_has_current_test))) _).
  vm_compute. reflexivity.
Defined.

(** The claim C7 at a request of a user without permissions: the page has
    a running test, and the request is answered with [PermissionDenied],
    without an error message and without a redirect. *)
Lemma add_form_current_test_permission_denied :
  lookup_page 1 site = Some home
  ∧ has_current_test (manager := spec_manager) home site
  ∧ add_form (methods := spec_methods) (manager := spec_manager)
      (validation := name_required)
      (post visitor {[ "name" := "Hero" ]}) 1 site
    = (Raise PermissionDenied, site).
Proof.
  split; [reflexivity|]. split; [exact home_has_current_test|].
  vm_compute. reflexivity.
Qed.

Lemma add_form_rejects_page_not_ready_witness :
  lookup_page 2 site = Some unpublished
  ∧ (live unpublished = false ∨ has_unpublished_changes unpublished = false)
  ∧ add_form (methods := spec_methods) (manager := spec_manager)
      (validation := name_required)
      (post editor {[ "name" := "Hero" ]}) 2 site
    = (Ok (Redirect "wagtailadmin_pages:edit" 2),
       with_error "To run an A/B test on this page, it must be live with draft changes."
         site).
Proof.
  assert (H1 : lookup_page 2 site = Some unpublished) by reflexivity.
  assert (H2 : live unpublished = false ∨ has_unpublished_changes unpublished = false)
    by (left; reflexivity).
  split; [exact H1|]. split; [exact H2|].
  refine (proj1 (proj2 (proj2
    (add_form_rejects_page_not_ready (methods := spec_methods)
       (manager := spec_manager) (validation := name_required)
       (post editor {[ "name" := "Hero" ]}) 2 unpublished site H1 H2))) _ _).
  - vm_compute. reflexivity.
  - intros [t Ht]. vm_compute in Ht. done.
Defined.

(** The claim C9 at a request of a user without permissions: the page is
    not live, and the request is answered with [PermissionDenied], without
    an error message and without a redirect. *)
Lemma add_form_not_live_permission_denied :
  lookup_page 2 site = Some unpublished
  ∧ live unpublished = false
  ∧ add_form (methods := spec_methods) (manager := spec_manager)
      (validation := name_required)
      (post visitor {[ "name" := "Hero" ]}) 2 site
    = (Raise PermissionDenied, site).
Proof. repeat split; vm_compute; reflexivity. Qed.

(** When every check passes and the form is valid, the test is created in
    Draft, and started when the request asks for it. *)
Lemma add_form_creates_and_starts :
  add_form (methods := spec_methods) (manager := spec_manager)
      (validation := name_required)
    (post editor {[ "name" := "Hero"; "start" := "1" ]}) 1 site_without_tests
  = (Ok (Redirect "wagtailadmin_pages:edit" 1),
     {| pages := [ home; unpublished ];
        ab_tests := [ {| name := "Hero"; hypothesis := "A bigger button converts better";
                         goal_event := "visit-page";
                         goal_page := None; sample_size := 100; page := 1;
                         treatment_revision := 12; created_by := 3;
                         status := RUNNING; winning_variant := None |} ];
        messages := [] |}).
Proof. vm_compute. reflexivity. Qed.

End CreateClaims.


(** ** The action menu and the handler of its actions *)

Module MenuProperties.

Import Model Http QuerySet Progress ProgressActions Create Spec Aux Examples ActionMenu Compare Terms Samples.

Import ActionClaims.

Lemma init_by_status ab_test :
  init ab_test =
  match status ab_test with
  | DRAFT => {| menu_items := [EndAbTestMenuItem]; default_item := Some StartAbTestMenuItem |}
  | RUNNING => {| menu_items := [PauseAbTestMenuItem]; default_item := Some EndAbTestMenuItem |}
  | PAUSED => {| menu_items := [EndAbTestMenuItem]; default_item := Some RestartAbTestMenuItem |}
  | FINISHED => {| menu_items := []; default_item := None |}
  end.
Proof.
  unfold init. rewrite !filter_cons, filter_nil. unfold is_shown.
  destruct (status_cases (status ab_test)) as (_ & -> & ->).
  destruct (status ab_test); repeat case_decide; try done;
    repeat match goal with H : Is_true (bool_decide _) |- _ => apply bool_decide_unpack in H
                      | H : ¬ Is_true (bool_decide _) |- _ => rewrite bool_decide_spec in H end;
    done.
Qed.

(** X1. The action menu of a test has a default item unless the test is
    Finished. For a Finished test no item is shown, [default_item] is
    [None] and [render_html] fails with [AttributeError], since it calls
    [render_html] on [None]. For every other status the menu has a default
    item and one further item, the two differ, one of them ends the test,
    and [render_html] renders the default item and the other item with
    [show_menu] true. *)
Theorem render_html_fails_for_finished_test item_html ab_test :
  (status ab_test = FINISHED ↔ render_html item_html (init ab_test) = AttributeError)
  ∧ (status ab_test = FINISHED ↔ default_item (init ab_test) = None)
  ∧ (render_html item_html (init ab_test) = AttributeError
     ∨ ∃ first other,
         init ab_test = {| menu_items := [other]; default_item := Some first |}
         ∧ first ≠ other
         ∧ EndAbTestMenuItem ∈ [first; other]
         ∧ render_html item_html (init ab_test)
           = Rendered {| default_menu_item := item_html first;
                         show_menu := true;
                         rendered_menu_items := [item_html other] |}).
Proof.
  rewrite init_by_status. unfold render_html.
  destruct (status ab_test); cbn; (split; [by split|]); (split; [by split|]);
    first [ by left | right; do 2 eexists; repeat split; try done; set_solver ].
Qed.

Section Handler.

Context `{methods : AbTestMethods}.

(** X2. Every item the action menu shows for a test posts an action the
    handler accepts: when a request posts the key of that item and of no
    other item, the POST branch of [progress] finds the status legal for
    the action and calls its method, adding the success message for start
    and restart and no error message. *)
Theorem menu_offers_only_actions_the_handler_accepts ab_test item request msgs :
  item ∈ all_items (init ab_test) →
  (∀ other, in_POST (item_name other) request = true ↔ other = item) →
  is_shown item ab_test = true
  ∧ legal (item_action item) (status ab_test) = true
  ∧ progress_post request ab_test msgs
    = (apply_action (item_action item) ab_test,
       msgs ++ match item with
               | StartAbTestMenuItem | RestartAbTestMenuItem =>
                   [(SUCCESS, "A/B test started!")]
               | _ => []
               end).
Proof.
  intros Hitem Honly.
  assert (Hkeys : ∀ other, in_POST (item_name other) request = bool_decide (other = item)).
  { intros other. case_bool_decide as Hb; [by apply Honly|].
    destruct (in_POST (item_name other) request) eqn:E; [|done]. by apply Honly in E. }
  pose proof (Hkeys StartAbTestMenuItem) as H1. pose proof (Hkeys RestartAbTestMenuItem) as H2.
  pose proof (Hkeys EndAbTestMenuItem) as H3. pose proof (Hkeys PauseAbTestMenuItem) as H4.
  cbn [item_name] in H1, H2, H3, H4.
  unfold progress_post, is_shown. rewrite H1, H2, H3, H4.
  unfold all_items in Hitem. rewrite init_by_status in Hitem.
  destruct (status_cases (status ab_test)) as (-> & -> & ->).
  destruct (status ab_test); cbn in Hitem;
    repeat (apply elem_of_cons in Hitem as [->|Hitem]);
    try (by apply elem_of_nil in Hitem);
    repeat case_bool_decide; try done; cbn; rewrite ?app_nil_r; done.
Qed.

(** X13. The menu offers every action that is legal for the status of the
    test: for each such action one of the items shown has the same effect
    on the test (start and restart are the same call). *)
Theorem menu_offers_every_legal_action ab_test a :
  legal a (status ab_test) = true →
  ∃ item,
    item ∈ all_items (init ab_test)
    ∧ is_shown item ab_test = true
    ∧ apply_action (item_action item) = apply_action a.
Proof.
  unfold all_items, is_shown. rewrite init_by_status.
  destruct (status_cases (status ab_test)) as (_ & -> & _).
  destruct a, (status ab_test); try done; intros _; cbn [default_item menu_items].
  - exists StartAbTestMenuItem. split; [left|done].
  - exists RestartAbTestMenuItem. split; [left|done].
  - exists StartAbTestMenuItem. split; [left|done].
  - exists RestartAbTestMenuItem. split; [left|done].
  - exists EndAbTestMenuItem. split; [right; left|done].
  - exists EndAbTestMenuItem. split; [left|done].
  - exists EndAbTestMenuItem. split; [right; left|done].
  - exists PauseAbTestMenuItem. split; [right; left|done].
Qed.

End Handler.

Lemma menu_offers_only_actions_the_handler_accepts_witness :
  PauseAbTestMenuItem ∈ all_items (init (test_with RUNNING 100))
  ∧ (∀ other, in_POST (item_name other) (post editor {[ "action-pause-ab-test" := "1" ]}) = true
              ↔ other = PauseAbTestMenuItem)
  ∧ progress_post (methods := spec_methods)
      (post editor {[ "action-pause-ab-test" := "1" ]}) (test_with RUNNING 100) []
    = (test_with PAUSED 100, []).
Proof.
  assert (H1 : PauseAbTestMenuItem ∈ all_items (init (test_with RUNNING 100)))
    by (vm_compute; right; left).
  assert (H2 : ∀ other,
             in_POST (item_name other) (post editor {[ "action-pause-ab-test" := "1" ]}) = true
             ↔ other = PauseAbTestMenuItem)
    by (intros []; vm_compute; split; intros; congruence).
  split; [exact H1|]. split; [exact H2|].
  exact (proj2 (proj2 (menu_offers_only_actions_the_handler_accepts (methods := spec_methods)
                  (test_with RUNNING 100) PauseAbTestMenuItem
                  (post editor {[ "action-pause-ab-test" := "1" ]}) [] H1 H2))).
Defined.

Lemma menu_offers_every_legal_action_witness :
  legal Start (status (test_with PAUSED 100)) = true
  ∧ ∃ item,
      item ∈ all_items (init (test_with PAUSED 100))
      ∧ is_shown item (test_with PAUSED 100) = true
      ∧ apply_action (methods := spec_methods) (item_action item)
        = apply_action (methods := spec_methods) Start.
Proof.
  split; [reflexivity|].
  exact (menu_offers_every_legal_action (methods := spec_methods) (test_with PAUSED 100)
           Start eq_refl).
Defined.

End MenuProperties.

(** ** What add_form creates *)

Module CreateProperties.

Import Model Http QuerySet Progress ProgressActions Create Spec Aux Examples ActionMenu Compare Terms Samples.

Import CreateClaims.

Section Creation.

Context `{methods : AbTestMethods} `{manager : AbTestManager}
  `{validation : FormValidation}.

(** What [add_ab_test_checks] answers, case by case. *)
Lemma add_ab_test_checks_cases {C : Type} request page s :
  add_ab_test_checks (C := C) request page s =
  if negb (permitted request page) then (Raise PermissionDenied, s)
  else if bool_decide (has_current_test page s)
  then (Ok (Some (Redirect "wagtailadmin_pages:edit" (page_id page))),
        with_error "This page already has a running A/B test" s)
  else if negb (live page) || negb (has_unpublished_changes page)
  then (Ok (Some (Redirect "wagtailadmin_pages:edit" (page_id page))),
        with_error "To run an A/B test on this page, it must be live with draft changes." s)
  else (Ok None, s).
Proof.
  destruct (permitted request page) eqn:Hp; simpl.
  - by apply add_ab_test_checks_permitted.
  - by apply add_ab_test_checks_denied.
Qed.

Lemma checks_pass_iff {C : Type} request page s :
  checks_pass request page s ↔ add_ab_test_checks (C := C) request page s = (Ok None, s).
Proof.
  rewrite add_ab_test_checks_cases. unfold checks_pass.
  destruct (permitted request page); simpl; [|by split; [intros [? _]|]].
  case_bool_decide as Hcur; [by split; [intros (_ & ? & _)|]|].
  destruct (live page), (has_unpublished_changes page); simpl;
    (split; [by intros (_ & _ & ? & ?)|done]).
Qed.

Lemma add_form_passed request id s page :
  lookup_page id s = Some page →
  checks_pass request page s →
  add_form request id s =
  if bool_decide (method request = "POST") then
    match cleaned_data (POST request) with
    | Some data =>
        (Ok (Redirect "wagtailadmin_pages:edit" (page_id page)), created request page data s)
    | None =>
        (Ok (Render "wagtail_ab_testing/add_form.html" (page, Some (POST request))), s)
    end
  else (Ok (Render "wagtail_ab_testing/add_form.html" (page, None)), s).
Proof.
  intros Hpage Hchecks. rewrite (add_form_found _ _ _ _ Hpage).
  apply (checks_pass_iff (C := FormContext)) in Hchecks. rewrite Hchecks.
  case_bool_decide; [|done]. destruct (cleaned_data (POST request)) as [data|]; [|done].
  unfold created, mbind, mret, View_bind, View_ret, form_save, start_saved, new_test.
  destruct s as [ps l ms]. cbn [ab_tests pages messages].
  destruct (in_POST "start" request); cbn [ab_tests pages messages]; [|done].
  rewrite length_app. cbn [length].
  replace (pred (length l + 1)) with (length l + 0)%nat by lia.
  by rewrite alter_app_r.
Qed.

Lemma add_form_not_found request id s :
  lookup_page id s = None → add_form request id s = (Raise Http404, s).
Proof.
  intros Hpage. unfold add_form, get_object_or_404. unfold mbind at 1. unfold View_bind at 1.
  by rewrite Hpage.
Qed.

Lemma add_form_refused request id s :
  (∀ page, lookup_page id s = Some page → ¬ checks_pass request page s) →
  ab_tests (add_form request id s).2 = ab_tests s
  ∧ pages (add_form request id s).2 = pages s
  ∧ (messages (add_form request id s).2 = messages s
     ∨ ∃ text, messages (add_form request id s).2 = messages s ++ [(ERROR, text)]).
Proof.
  intros Hno. destruct (lookup_page id s) as [page|] eqn:Hpage.
  2:{ rewrite (add_form_not_found _ _ _ Hpage). split; [done|]. split; [done|]. by left. }
  specialize (Hno page eq_refl). rewrite (checks_pass_iff (C := FormContext)) in Hno.
  rewrite (add_form_found _ _ _ _ Hpage). rewrite add_ab_test_checks_cases in Hno |- *.
  destruct (negb (permitted request page)).
  { split; [done|]. split; [done|]. by left. }
  case_bool_decide.
  { split; [done|]. split; [done|]. right. by eexists. }
  destruct (negb (live page) || negb (has_unpublished_changes page)); [|done].
  split; [done|]. split; [done|]. right. by eexists.
Qed.

Lemma add_form_keeps_pages request id s : pages (add_form request id s).2 = pages s.
Proof.
  destruct (lookup_page id s) as [page|] eqn:Hpage;
    [|by rewrite add_form_not_found].
  assert (Hdec : Decision (checks_pass request page s))
    by (unfold checks_pass, has_current_test; apply _).
  destruct Hdec as [Hc|Hc].
  - rewrite (add_form_passed _ _ _ _ Hpage Hc). case_bool_decide; [|done].
    by destruct (cleaned_data (POST request)).
  - apply add_form_refused. intros page' Hp'. congruence.
Qed.

(** X3. A POST with a valid form for an existing page that passes every
    check is answered with the redirect to the page editor and adds one
    test as the last row: the fields of the form, the page, its latest
    revision and the requesting user, in Draft, started when the form was
    sent with [start]. Pages and messages are as before. *)
Theorem add_form_creates_the_test request id s page data :
  lookup_page id s = Some page →
  checks_pass request page s →
  method request = "POST" →
  cleaned_data (POST request) = Some data →
  add_form request id s
  = (Ok (Redirect "wagtailadmin_pages:edit" (page_id page)), created request page data s).
Proof.
  intros Hpage Hchecks Hpost Hdata. rewrite (add_form_passed _ _ _ _ Hpage Hchecks).
  by rewrite bool_decide_eq_true_2, Hdata.
Qed.

(** X4. [add_form] changes the stored tests only by creating one: either
    the tests are as before, or the page exists, every check passes, the
    request is a POST with a valid form and the site is the one after the
    creation. The pages never change, and a message is added only as one
    error message, with the tests unchanged. *)
Theorem add_form_changes_tests_only_by_creating request id s :
  (ab_tests (add_form request id s).2 = ab_tests s
   ∨ ∃ page data,
       lookup_page id s = Some page
       ∧ checks_pass request page s
       ∧ method request = "POST"
       ∧ cleaned_data (POST request) = Some data
       ∧ (add_form request id s).2 = created request page data s)
  ∧ pages (add_form request id s).2 = pages s
  ∧ (messages (add_form request id s).2 = messages s
     ∨ ∃ text, ab_tests (add_form request id s).2 = ab_tests s
               ∧ messages (add_form request id s).2 = messages s ++ [(ERROR, text)]).
Proof.
  destruct (lookup_page id s) as [page|] eqn:Hpage.
  2:{ destruct (add_form_refused request id s) as (Ht & Hp & Hm); [intros; congruence|].
      split; [by left|]. split; [done|]. destruct Hm as [Hm|[text Hm]]; [by left|].
      right. by exists text. }
  assert (Hdec : Decision (checks_pass request page s))
    by (unfold checks_pass, has_current_test; apply _).
  destruct Hdec as [Hc|Hc].
  - rewrite (add_form_passed _ _ _ _ Hpage Hc).
    case_bool_decide as Hpost.
    + destruct (cleaned_data (POST request)) as [data|] eqn:Hdata.
      * split; [right; by exists page, data|]. split; [done|]. by left.
      * split; [by left|]. split; [done|]. by left.
    + split; [by left|]. split; [done|]. by left.
  - destruct (add_form_refused request id s) as (Ht & Hp & Hm).
    { intros page' Hp'. congruence. }
    split; [by left|]. split; [done|]. destruct Hm as [Hm|[text Hm]]; [by left|].
    right. by exists text.
Qed.

(** X5. Once a test has been created for a page, a further request to
    [add_form] for that page by a user with both permissions is answered
    with the redirect to the page editor and the error message that the
    page already has a running A/B test, and creates nothing. This holds
    when the manager finds open tests and [start] leaves a Draft test on
    its page and current. *)
Theorem add_form_second_request_is_rejected request request' id s page data :
  finds_open_tests manager →
  (∀ t, status t = DRAFT → Model.page (start t) = Model.page t ∧ is_current (start t) = true) →
  lookup_page id s = Some page →
  checks_pass request page s →
  method request = "POST" →
  cleaned_data (POST request) = Some data →
  permitted request' page = true →
  add_form request' id (add_form request id s).2
  = (Ok (Redirect "wagtailadmin_pages:edit" (page_id page)),
     with_error "This page already has a running A/B test" (add_form request id s).2).
Proof.
  intros Hfinds Hstart Hpage Hchecks Hpost Hdata Hperm.
  rewrite (add_form_passed _ _ _ _ Hpage Hchecks).
  rewrite bool_decide_eq_true_2, Hdata by done. cbn [snd].
  assert (Hpage' : lookup_page id (created request page data s) = Some page) by done.
  rewrite (add_form_found _ _ _ _ Hpage'), add_ab_test_checks_cases, Hperm. cbn [negb].
  rewrite bool_decide_eq_true_2; [done|].
  set (t := (if in_POST "start" request then start else Datatypes.id) (new_test data page (user request))).
  unfold has_current_test.
  destruct (current_for_page page (ab_tests (created request page data s))) as [u|] eqn:Hu;
    [by exists u|].
  exfalso. cut (is_current t = false).
  { unfold t. destruct (in_POST "start" request); [|done].
    by destruct (Hstart (new_test data page (user request)) eq_refl) as [_ ->]. }
  apply (Hfinds page _ Hu t).
  - unfold created. cbn [ab_tests]. apply elem_of_app. right. left.
  - unfold t. destruct (in_POST "start" request); [|done]. by apply Hstart.
Qed.

End Creation.

Lemma spec_start_keeps_current t :
  status t = DRAFT →
  Model.page (start (AbTestMethods := spec_methods) t) = Model.page t
  ∧ is_current (start (AbTestMethods := spec_methods) t) = true.
Proof. done. Qed.

Lemma editor_passes_checks_on_home :
  checks_pass (manager := spec_manager) (post editor {[ "name" := "Hero" ]}) home
    site_without_tests.
Proof.
  split; [by vm_compute|]. split; [|done]. intros [t Ht]. vm_compute in Ht. done.
Qed.

Lemma add_form_creates_the_test_witness :
  lookup_page 1 site_without_tests = Some home
  ∧ checks_pass (manager := spec_manager) (post editor {[ "name" := "Hero" ]}) home
      site_without_tests
  ∧ add_form (methods := spec_methods) (manager := spec_manager)
      (validation := name_required) (post editor {[ "name" := "Hero" ]}) 1 site_without_tests
    = (Ok (Redirect "wagtailadmin_pages:edit" 1),
       {| pages := [ home; unpublished ];
          ab_tests := [ new_test {| form_name := "Hero";
                                    form_hypothesis := "A bigger button converts better";
                                    form_goal_event := "visit-page";
                                    form_goal_page := None;
                                    form_sample_size := 100 |} home editor ];
          messages := [] |}).
Proof.
  assert (H1 : lookup_page 1 site_without_tests = Some home) by reflexivity.
  split; [exact H1|]. split; [exact editor_passes_checks_on_home|].
  exact (add_form_creates_the_test (methods := spec_methods) (manager := spec_manager)
           (validation := name_required) (post editor {[ "name" := "Hero" ]}) 1
           site_without_tests home _ H1 editor_passes_checks_on_home eq_refl eq_refl).
Defined.

Lemma add_form_second_request_is_rejected_witness :
  messages
    (add_form (methods := spec_methods) (manager := spec_manager)
       (validation := name_required) (post editor {[ "name" := "Again" ]}) 1
       (add_form (methods := spec_methods) (manager := spec_manager)
          (validation := name_required) (post editor {[ "name" := "Hero" ]}) 1
          site_without_tests).2).2
  = [ (ERROR, "This page already has a running A/B test") ].
Proof.
  rewrite (add_form_second_request_is_rejected (methods := spec_methods)
             (manager := spec_manager) (validation := name_required)
             (post editor {[ "name" := "Hero" ]}) (post editor {[ "name" := "Again" ]})
             1 site_without_tests home _
             spec_manager_finds_open_tests spec_start_keeps_current eq_refl
             editor_passes_checks_on_home eq_refl eq_refl eq_refl).
  reflexivity.
Defined.

End CreateProperties.

(** ** The comparison views and sequences of requests *)

Module CompareProperties.

Import Model Http QuerySet Progress ProgressActions Create Spec Aux Examples ActionMenu Compare Terms Samples.

Import CreateClaims CreateProperties.

Section Comparison.

Context `{methods : AbTestMethods} `{manager : AbTestManager}
  `{validation : FormValidation} `{comparison_of : PageComparison}.

Lemma changed_all_changed page :
  Forall (λ comp, has_changed comp = true) (changed page).
Proof.
  unfold changed. apply Forall_forall. intros comp [H _]%list_elem_of_filter.
  by apply Is_true_true.
Qed.

Lemma any_has_changed (l : list Comparison) :
  Forall (λ comp, has_changed comp = true) l →
  existsb has_changed l = bool_decide (l ≠ []).
Proof. destruct 1 as [|comp l H _]; [done|]. cbn. by rewrite H. Qed.

Lemma add_compare_found request id s page :
  lookup_page id s = Some page →
  add_compare request id s =
  match add_ab_test_checks (C := CompareContext) request page s with
  | (Ok (Some response), s') => (Ok response, s')
  | (Ok None, s') =>
      (Ok (Render "wagtail_ab_testing/add_compare.html"
             {| cmp_page := page;
                cmp_latest_revision_as_page := latest_revision page;
                cmp_comparison := changed page;
                cmp_differences := existsb has_changed (changed page) |}), s')
  | (Raise e, s') => (Raise e, s')
  end.
Proof.
  intros Hpage. unfold add_compare, get_object_or_404.
  unfold mbind at 1. unfold View_bind at 1. rewrite Hpage.
  unfold mbind, View_bind.
  by destruct (add_ab_test_checks request page s) as [[[r|]|e] s'].
Qed.

Lemma add_compare_not_found request id s :
  lookup_page id s = None → add_compare request id s = (Raise Http404, s).
Proof.
  intros Hpage. unfold add_compare, get_object_or_404.
  unfold mbind at 1. unfold View_bind at 1. by rewrite Hpage.
Qed.

Lemma compare_draft_found request id s page :
  lookup_page id s = Some page →
  compare_draft request id s =
  (Ok (Render "wagtail_ab_testing/compare.html"
         {| draft_page := page;
            draft_latest_revision_as_page := latest_revision page;
            draft_comparison := changed page |}), s).
Proof.
  intros Hpage. unfold compare_draft, get_object_or_404.
  unfold mbind at 1. unfold View_bind at 1. by rewrite Hpage.
Qed.

Lemma compare_draft_keeps_site request id s : (compare_draft request id s).2 = s.
Proof.
  destruct (lookup_page id s) as [page|] eqn:Hpage.
  - by rewrite (compare_draft_found _ _ _ _ Hpage).
  - unfold compare_draft, get_object_or_404. unfold mbind at 1. unfold View_bind at 1.
    by rewrite Hpage.
Qed.

Lemma add_compare_keeps_tests request id s :
  ab_tests (add_compare request id s).2 = ab_tests s
  ∧ pages (add_compare request id s).2 = pages s.
Proof.
  destruct (lookup_page id s) as [page|] eqn:Hpage;
    [|by rewrite add_compare_not_found].
  rewrite (add_compare_found _ _ _ _ Hpage), add_ab_test_checks_cases.
  destruct (negb (permitted request page)); [done|]. case_bool_decide; [done|].
  by destruct (negb (live page) || negb (has_unpublished_changes page)).
Qed.

(** X6. [add_compare] never changes tests or pages. It renders exactly
    when the page exists and every check of [add_ab_test_checks] passes;
    it then leaves the site as it was and hands the template the page, its
    latest revision and exactly the comparisons of the page that have
    changed, with [differences] true iff there is one. [compare_draft]
    shows the same page, revision and comparisons. *)
Theorem add_compare_shows_changes_of_checked_pages request id s :
  ab_tests (add_compare request id s).2 = ab_tests s
  ∧ pages (add_compare request id s).2 = pages s
  ∧ ((∃ template context, (add_compare request id s).1 = Ok (Render template context))
     ↔ ∃ page, lookup_page id s = Some page ∧ checks_pass request page s)
  ∧ ∀ template context,
      (add_compare request id s).1 = Ok (Render template context) →
      template = "wagtail_ab_testing/add_compare.html"
      ∧ (add_compare request id s).2 = s
      ∧ lookup_page id s = Some (cmp_page context)
      ∧ cmp_latest_revision_as_page context = latest_revision (cmp_page context)
      ∧ Forall (λ comp, comp ∈ get_comparison (cmp_page context)
                        ∧ has_changed comp = true) (cmp_comparison context)
      ∧ (∀ comp, comp ∈ get_comparison (cmp_page context) → has_changed comp = true →
           comp ∈ cmp_comparison context)
      ∧ cmp_differences context = bool_decide (cmp_comparison context ≠ [])
      ∧ compare_draft request id s
        = (Ok (Render "wagtail_ab_testing/compare.html"
                 {| draft_page := cmp_page context;
                    draft_latest_revision_as_page := cmp_latest_revision_as_page context;
                    draft_comparison := cmp_comparison context |}), s).
Proof.
  destruct (lookup_page id s) as [page|] eqn:Hpage.
  2:{ rewrite add_compare_not_found by done. cbn [fst snd].
      split; [done|]. split; [done|]. split; [|done].
      split; [by intros (? & ? & ?)|by intros (? & ? & ?)]. }
  rewrite (add_compare_found _ _ _ _ Hpage).
  assert (Hdec : Decision (checks_pass request page s))
    by (unfold checks_pass, has_current_test; apply _).
  destruct (decide (checks_pass request page s)) as [Hc|Hc].
  - rewrite (proj1 (checks_pass_iff (C := CompareContext) request page s) Hc). cbn [fst snd].
    split; [done|]. split; [done|]. split.
    { split; [by exists page|]. intros _. by eexists _, _. }
    intros template context [= <- <-]. cbn [cmp_page cmp_comparison cmp_differences
      cmp_latest_revision_as_page].
    split; [done|]. split; [done|]. split; [done|]. split; [done|].
    split; [|split; [|split]].
    + apply Forall_forall. intros comp [H ?]%list_elem_of_filter. split; [done|].
      by apply Is_true_true.
    + intros comp Hin H. apply list_elem_of_filter. split; [by apply Is_true_true|done].
    + apply any_has_changed, changed_all_changed.
    + by apply compare_draft_found.
  - assert (Hn : ∀ template context s',
        add_ab_test_checks (C := CompareContext) request page s ≠ (Ok None, s')
        ∧ add_ab_test_checks (C := CompareContext) request page s
          ≠ (Ok (Some (Render template context)), s')).
    { intros template context s'. rewrite add_ab_test_checks_cases.
      split.
      - intros H. apply Hc. apply (checks_pass_iff (C := CompareContext)).
        rewrite add_ab_test_checks_cases.
        repeat (case_match; try done); by injection H as <-.
      - repeat (case_match; try done). }
    pose proof (add_ab_test_checks_cases (C := CompareContext) request page s) as Hcases.
    destruct (add_ab_test_checks request page s) as [[[r|]|e] s'] eqn:Hchecks; cbn [fst snd].
    + assert (ab_tests s' = ab_tests s ∧ pages s' = pages s) as [-> ->].
      { repeat case_match; try discriminate; by injection Hcases as -> ->. }
      split; [done|]. split; [done|]. split.
      * split; [|intros (page' & [= <-] & ?); done].
        intros (template & context & [= ->]). by destruct (Hn template context s') as [_ []].
      * intros template context [= ->]. by destruct (Hn template context s') as [_ []].
    + by destruct (Hn "x" {| cmp_page := page; cmp_latest_revision_as_page := 0;
                            cmp_comparison := []; cmp_differences := false |} s') as [[] _].
    + assert (s' = s) as ->. { repeat case_match; try discriminate; by injection Hcases as -> ->. }
      split; [done|]. split; [done|]. split; [|done].
      split; [by intros (? & ? & ?)|]. intros (page' & [= <-] & ?); done.
Qed.

(** X7. A request that is not a POST is answered alike by [add_compare]
    and [add_form]: the site afterwards is the same (the same error
    message, if any), they raise the same exception, they redirect to the
    same place, and one renders its template iff the other renders its
    empty form. *)
Theorem add_compare_answers_like_add_form request id s :
  method request ≠ "POST" →
  (add_compare request id s).2 = (add_form request id s).2
  ∧ (∀ e, (add_compare request id s).1 = Raise e ↔ (add_form request id s).1 = Raise e)
  ∧ (∀ view arg, (add_compare request id s).1 = Ok (Redirect view arg)
                 ↔ (add_form request id s).1 = Ok (Redirect view arg))
  ∧ ((∃ context, (add_compare request id s).1
                 = Ok (Render "wagtail_ab_testing/add_compare.html" context))
     ↔ (∃ page, (add_form request id s).1
                = Ok (Render "wagtail_ab_testing/add_form.html" (page, None)))).
Proof.
  intros Hget.
  assert (Hcases :
    (add_compare request id s = (Raise Http404, s)
     ∧ add_form request id s = (Raise Http404, s))
    ∨ (add_compare request id s = (Raise PermissionDenied, s)
       ∧ add_form request id s = (Raise PermissionDenied, s))
    ∨ (∃ view arg s',
         add_compare request id s = (Ok (Redirect view arg), s')
         ∧ add_form request id s = (Ok (Redirect view arg), s'))
    ∨ (∃ context page,
         add_compare request id s
         = (Ok (Render "wagtail_ab_testing/add_compare.html" context), s)
         ∧ add_form request id s
           = (Ok (Render "wagtail_ab_testing/add_form.html" (page, None)), s))).
  { destruct (lookup_page id s) as [page|] eqn:Hpage.
    2:{ left. by rewrite add_compare_not_found, add_form_not_found. }
    right. rewrite (add_compare_found _ _ _ _ Hpage), (add_form_found _ _ _ _ Hpage).
    rewrite !add_ab_test_checks_cases. rewrite (bool_decide_eq_false_2 _ Hget).
    destruct (negb (permitted request page)); [by left|]. right.
    case_bool_decide; [left; by eexists _, _, _|].
    destruct (negb (live page) || negb (has_unpublished_changes page));
      [left; by eexists _, _, _|right; by eexists _, _]. }
  destruct Hcases as [[-> ->]|[[-> ->]|[(view & arg & s' & -> & ->)|(context & page & -> & ->)]]];
    cbn [fst snd]; (split; [done|]).
  - split; [intros e; split; by intros [= <-]|]. split; [done|]. split; by intros [? ?].
  - split; [intros e; split; by intros [= <-]|]. split; [done|]. split; by intros [? ?].
  - split; [done|]. split; [intros view' arg'; split; by intros [= <- <-]|].
    split; by intros [? ?].
  - split; [done|]. split; [done|]. split; intros _; by eexists.
Qed.

End Comparison.

Lemma add_compare_answers_like_add_form_witness :
  method (get editor) ≠ "POST"
  ∧ (add_compare (manager := spec_manager) (comparison_of := title_changed)
       (get editor) 1 site).2
    = (add_form (methods := spec_methods) (manager := spec_manager)
         (validation := name_required) (get editor) 1 site).2
  ∧ messages (add_compare (manager := spec_manager) (comparison_of := title_changed)
                (get editor) 1 site).2
    = [ (ERROR, "This page already has a running A/B test") ].
Proof.
  assert (H : method (get editor) ≠ "POST") by (by vm_compute).
  split; [exact H|]. split; [|by vm_compute].
  exact (proj1 (add_compare_answers_like_add_form (methods := spec_methods)
                  (manager := spec_manager) (validation := name_required)
                  (comparison_of := title_changed) (get editor) 1 site H)).
Defined.

Section Wizard.

Context `{methods : AbTestMethods} `{manager : AbTestManager}
  `{validation : FormValidation} `{comparison_of : PageComparison}.

(** X8. No sequence of requests to [add_compare], [add_form] and
    [compare_draft] leaves a page with two current tests, and none changes
    the pages, when the manager finds open tests and [start] leaves a test
    on its page. *)
Theorem wizard_keeps_one_current_test_per_page rs s :
  finds_open_tests manager →
  (∀ t, Model.page (start t) = Model.page t) →
  one_current_per_page s →
  one_current_per_page (serve_all rs s)
  ∧ pages (serve_all rs s) = pages s.
Proof.
  intros Hfinds Hstart. revert s. unfold serve_all.
  induction rs as [|r rs IH]; intros s Hinv; [done|]. cbn [foldl].
  assert (Hstep : one_current_per_page (serve r s) ∧ pages (serve r s) = pages s).
  { destruct r as [request id|request id|request id]; cbn [serve].
    - destruct (add_compare_keeps_tests request id s) as [Ht Hp].
      split; [|done]. unfold one_current_per_page. by rewrite Ht.
    - split; [by apply add_form_keeps_one_current_per_page|].
      apply add_form_keeps_pages.
    - by rewrite compare_draft_keeps_site. }
  destruct Hstep as [Hinv' Hpages]. destruct (IH _ Hinv') as [? ->]. done.
Qed.

End Wizard.

Lemma wizard_keeps_one_current_test_per_page_witness :
  one_current_per_page site_without_tests
  ∧ one_current_per_page
      (serve_all (methods := spec_methods) (manager := spec_manager)
         (validation := name_required) (comparison_of := title_changed)
         [ to_add_compare (get editor) 1;
           to_add_form (post editor {[ "name" := "Hero"; "start" := "1" ]}) 1;
           to_add_form (post editor {[ "name" := "Again" ]}) 1;
           to_compare_draft (get visitor) 1 ]
         site_without_tests)
  ∧ length (ab_tests
      (serve_all (methods := spec_methods) (manager := spec_manager)
         (validation := name_required) (comparison_of := title_changed)
         [ to_add_compare (get editor) 1;
           to_add_form (post editor {[ "name" := "Hero"; "start" := "1" ]}) 1;
           to_add_form (post editor {[ "name" := "Again" ]}) 1;
           to_compare_draft (get visitor) 1 ]
         site_without_tests)) = 1%nat.
Proof.
  assert (H : one_current_per_page site_without_tests).
  { intros i j t u Hi. by vm_compute in Hi. }
  split; [exact H|]. split; [|by vm_compute].
  exact (proj1 (wizard_keeps_one_current_test_per_page (methods := spec_methods)
                  (manager := spec_manager) (validation := name_required)
                  (comparison_of := title_changed) _ site_without_tests
                  spec_manager_finds_open_tests (λ t, eq_refl) H)).
Defined.

End CompareProperties.

(** ** The chart and the aggregate statistics *)

Module ChartProperties.

Import Model Http QuerySet Progress ProgressActions Create Spec Aux Examples ActionMenu Compare Terms Samples.

Import SumFacts ChartFacts StatsClaims ChartClaims.

#[local] Existing Instance date_hour_le_trans.

Lemma column_Permutation v (logs rows : list HourlyLog) :
  logs ≡ₚ rows →
  sumZ (conversions <$> of_variant v logs) = sumZ (conversions <$> of_variant v rows).
Proof.
  unfold of_variant. induction 1 as [|l logs rows _ IH|l l' logs|logs mid rows _ IH1 _ IH2].
  - done.
  - rewrite !filter_cons. case_decide; [|done]. by rewrite !fmap_cons, !sumZ_cons, IH.
  - rewrite !filter_cons. repeat case_decide; rewrite ?fmap_cons, ?sumZ_cons; lia.
  - congruence.
Qed.

Lemma chart_loop_ends_at_sums logs : ∀ st,
  control (foldl chart_step st logs)
  = control st + sumZ (conversions <$> of_variant CONTROL logs)
  ∧ treatment (foldl chart_step st logs)
    = treatment st + sumZ (conversions <$> of_variant TREATMENT logs).
Proof.
  induction logs as [|l logs IH]; intros st; [cbn; lia|].
  cbn [foldl]. destruct (IH (chart_step st l)) as [-> ->].
  rewrite chart_step_eq. cbn [control treatment].
  rewrite accumulate_control, accumulate_treatment.
  change (l :: logs) with ([l] ++ logs). unfold of_variant.
  rewrite !filter_app, !fmap_app, !sumZ_app, !filter_cons, !filter_nil.
  destruct (variant l) eqn:Hv; repeat case_decide; case_bool_decide; try done;
    cbn; lia.
Qed.

Lemma column_nonneg v logs :
  Forall valid_log logs → 0 <= sumZ (conversions <$> of_variant v logs).
Proof.
  unfold of_variant. induction 1 as [|l logs [_ Hl] _ IH]; [done|].
  rewrite filter_cons. case_decide; [|done]. rewrite fmap_cons, sumZ_cons. lia.
Qed.

(** X9. For the ordered logs, the totals of the loop end at the aggregate
    conversions of the statistics, but each point of the chart was taken at
    a log, the first one dated its day or later, and misses the conversions
    of the logs after that one: the aggregate of a variant is the point's
    value plus the conversions of the later logs of the variant, which are
    all dated the day of the point or later. With non-negative counts no
    point exceeds the aggregates. *)
Theorem chart_points_miss_later_rows rows logs :
  ordered_by_date_hour rows logs →
  control (chart_loop logs) = control_conversions rows
  ∧ treatment (chart_loop logs) = treatment_conversions rows
  ∧ Forall (λ p, ∃ before l later,
        logs = before ++ l :: later
        ∧ Forall (λ l', date l' < point_date p) before
        ∧ point_date p <= date l
        ∧ Forall (λ l', point_date p <= date l') later
        ∧ control_conversions rows
          = point_control p + sumZ (conversions <$> of_variant CONTROL later)
        ∧ treatment_conversions rows
          = point_treatment p + sumZ (conversions <$> of_variant TREATMENT later)
        ∧ (Forall valid_log rows →
           within (control_conversions rows) (treatment_conversions rows) p))
      (chart logs).
Proof.
  intros [Hperm Hsorted].
  assert (Hvalid : Forall valid_log rows → Forall valid_log logs) by (by rewrite Hperm).
  destruct (aggregates_are_sums rows) as (_ & Hc & _ & Ht).
  rewrite Hc, Ht, <- !(column_Permutation _ _ _ Hperm).
  destruct (chart_loop_ends_at_sums logs chart_init) as [Hlc Hlt].
  split; [exact Hlc|]. split; [exact Hlt|].
  apply (Sorted_StronglySorted _) in Hsorted.
  pose proof (chart_loop_totals logs [] chart_init Hsorted eq_refl eq_refl eq_refl
                (Forall_nil_2 _)) as Hpoints.
  change ([] ++ logs) with logs in Hpoints.
  eapply Forall_impl; [exact Hpoints|]. clear Hpoints.
  intros p (before & l & later & -> & Hbefore & Hl & Hpc & Hpt).
  exists before, l, later. split; [done|]. split; [done|]. split; [done|].
  split.
  - apply StronglySorted_app_1_r in Hsorted. apply StronglySorted_inv in Hsorted as [_ Hall].
    eapply Forall_impl; [exact Hall|]. intros l' Hle. unfold date_hour_le in Hle. cbn in Hle. lia.
  - assert (Hsum : ∀ v,
        sumZ (conversions <$> of_variant v (before ++ l :: later))
        = sumZ (conversions <$> of_variant v (before ++ [l]))
          + sumZ (conversions <$> of_variant v later)).
    { intros v. unfold of_variant.
      replace (before ++ l :: later) with ((before ++ [l]) ++ later)
        by (by rewrite <- app_assoc).
      by rewrite !(filter_app _ (before ++ [l])), !fmap_app, !sumZ_app. }
    rewrite !Hsum, <- Hpc, <- Hpt. split; [done|]. split; [done|].
    intros Hv%Hvalid. apply Forall_app in Hv as [_ Hv]. apply Forall_cons in Hv as [_ Hv].
    pose proof (column_nonneg CONTROL later Hv). pose proof (column_nonneg TREATMENT later Hv).
    unfold within. lia.
Qed.

Lemma chart_points_miss_later_rows_witness :
  ordered_by_date_hour rows_mixed (order_by_date_hour rows_mixed)
  ∧ control (chart_loop (order_by_date_hour rows_mixed)) = control_conversions rows_mixed
  ∧ last (chart (order_by_date_hour rows_mixed)) = Some (point 737795 1 5)
  ∧ treatment_conversions rows_mixed = 9.
Proof.
  split; [apply order_by_date_hour_ordered|].
  split; [|by vm_compute].
  exact (proj1 (chart_points_miss_later_rows rows_mixed (order_by_date_hour rows_mixed)
                  (order_by_date_hour_ordered rows_mixed))).
Defined.

End ChartProperties.

(** ** Signs and bounds of the float computations *)

Module FloatProperties.

Import Model Http QuerySet Progress ProgressActions Create Spec Aux Examples ActionMenu Compare Terms Samples.

Import Py PyFacts.

Lemma binary_round_aux_signed s m e l :
  0 <= m → signed s (binary_round_aux prec emax s m e l).
Proof.
  intros Hm. unfold binary_round_aux.
  destruct (shr_fexp prec emax m e l) as [mrs' e'] eqn:E1.
  apply shr_fexp_spec in E1 as [He' Hm']; [|done].
  pose proof (round_nearest_even_bounds (shr_m mrs') (loc_of_shr_record mrs')) as Hr.
  assert (0 <= shr_m mrs') by (rewrite Hm'; apply Z.div_pos; lia).
  destruct (shr_fexp prec emax _ e' loc_Exact) as [mrs'' e''] eqn:E2.
  apply shr_fexp_spec in E2 as [He'' Hm'']; [|lia].
  destruct (shr_m mrs'') as [|p|p] eqn:Ep; simpl; [done| |].
  - by destruct (_ <=? _).
  - assert (0 <= Z.neg p); [|lia]. rewrite Hm''. apply Z.div_pos; lia.
Qed.

Lemma div_pow2_lt m g a b :
  0 <= b → 0 <= a → m < g * 2 ^ (a + b) → m / 2 ^ b < g * 2 ^ a.
Proof.
  intros Hb Ha H. apply Z.div_lt_upper_bound; [lia|].
  rewrite Z.pow_add_r in H by lia. lia.
Qed.

Lemma div_pow2_le m g a b :
  0 <= b → 0 <= a → m <= g * 2 ^ (a + b) → m / 2 ^ b <= g * 2 ^ a.
Proof.
  intros Hb Ha H. apply Z.div_le_upper_bound; [lia|].
  rewrite Z.pow_add_r in H by lia. lia.
Qed.

Lemma Zdigits2_scaled m g a :
  0 <= m → 0 < g → 0 <= a → m <= g * 2 ^ a → Zdigits2 m <= Zdigits2 g + a.
Proof.
  intros Hm Hg Ha H. pose proof (Zdigits2_gt g ltac:(lia)). pose proof (Zdigits2_nonneg g).
  apply Zdigits2_le; [lia|]. split; [done|]. rewrite Z.pow_add_r by lia.
  assert (0 < 2 ^ a) by (apply Z.pow_pos_nonneg; lia). nia.
Qed.

(** Rounding does not cross a float: a value below [g * 2 ^ k], with [g]
    of at most 53 bits, rounds to at most [g * 2 ^ k]. *)
Lemma binary_round_aux_at_most s m e l g k :
  0 <= m → 0 < g → Zdigits2 g <= 53 → e <= k → -1074 <= k → k <= 971 →
  m < g * 2 ^ (k - e) →
  at_most g k (binary_round_aux prec emax s m e l).
Proof.
  intros Hm Hg Hdg Hek Hk1 Hk2 Hlt. unfold binary_round_aux.
  destruct (shr_fexp prec emax m e l) as [mrs' e'] eqn:E1.
  apply shr_fexp_spec in E1 as [He' Hm']; [|done].
  set (m2 := round_nearest_even (shr_m mrs') (loc_of_shr_record mrs')).
  pose proof (round_nearest_even_bounds (shr_m mrs') (loc_of_shr_record mrs')) as Hr.
  fold m2 in Hr.
  assert (Hm1 : 0 <= shr_m mrs') by (rewrite Hm'; apply Z.div_pos; lia).
  rewrite fexp_le in He'.
  assert (Hdm : Zdigits2 m <= Zdigits2 g + (k - e)) by (apply Zdigits2_scaled; lia).
  assert (He'k : e' <= k) by lia.
  assert (Hm1lt : shr_m mrs' < g * 2 ^ (k - e')).
  { rewrite Hm'. apply div_pow2_lt; [lia|lia|]. by replace (k - e' + (e' - e)) with (k - e) by lia. }
  assert (Hm2 : m2 <= g * 2 ^ (k - e')) by lia.
  destruct (shr_fexp prec emax m2 e' loc_Exact) as [mrs'' e''] eqn:E2.
  apply shr_fexp_spec in E2 as [He'' Hm'']; [|lia].
  rewrite fexp_le in He''.
  assert (Hdm2 : Zdigits2 m2 <= Zdigits2 g + (k - e')) by (apply Zdigits2_scaled; lia).
  assert (He''k : e'' <= k) by lia.
  assert (Hm3 : shr_m mrs'' <= g * 2 ^ (k - e'')).
  { rewrite Hm''. apply div_pow2_le; [lia|lia|]. by replace (k - e'' + (e'' - e')) with (k - e') by lia. }
  destruct (shr_m mrs'') as [|p|p] eqn:Ep; simpl; [done| |].
  - unfold emax, prec. destruct (Z.leb_spec e'' (1024 - 53)); [done|lia].
  - assert (0 <= Z.neg p); [|lia]. rewrite Hm''. apply Z.div_pos; lia.
Qed.

(** A mantissa of at least 53 bits does not underflow: the result is a
    normal float or, beyond the exponent range, infinity. *)
Lemma binary_round_aux_normal s m e l :
  2 ^ 52 <= m → -1074 <= e →
  match binary_round_aux prec emax s m e l with
  | S754_finite s' _ _ | S754_infinity s' => s' = s
  | _ => False
  end.
Proof.
  intros Hm He. unfold binary_round_aux.
  destruct (shr_fexp prec emax m e l) as [mrs' e'] eqn:E1.
  apply shr_fexp_spec in E1 as [He' Hm']; [|lia].
  set (m2 := round_nearest_even (shr_m mrs') (loc_of_shr_record mrs')).
  pose proof (round_nearest_even_bounds (shr_m mrs') (loc_of_shr_record mrs')) as Hr.
  fold m2 in Hr. rewrite fexp_le in He'.
  pose proof (Zdigits2_gt m ltac:(lia)) as Hdgt.
  assert (Hd : 53 <= Zdigits2 m).
  { destruct (Z_lt_le_dec (Zdigits2 m) 53) as [Hc|]; [|done]. exfalso.
    pose proof (Zdigits2_nonneg m).
    assert (2 ^ Zdigits2 m <= 2 ^ 52) by (apply Z.pow_le_mono_r; lia). lia. }
  assert (He'eq : e' = Zdigits2 m + e - 53) by lia.
  assert (Hlow : 2 ^ (Zdigits2 m - 1) <= m).
  { destruct m as [|p|p]; try lia. cbn [Zdigits2]. rewrite digits2_pos_size.
    pose proof (Pos.size_le p) as Hs. apply Pos2Z.pos_le_pos in Hs.
    rewrite Pos2Z.inj_pow in Hs. change (Z.pos 2) with 2 in Hs.
    replace (Z.pos (Pos.size p)) with (Z.pos (Pos.size p) - 1 + 1) in Hs by lia.
    rewrite Z.pow_add_r in Hs by lia. lia. }
  assert (Hm1 : 2 ^ 52 <= shr_m mrs' < 2 ^ 53).
  { rewrite Hm'. replace (e' - e) with (Zdigits2 m - 53) by lia. split.
    - apply Z.div_le_lower_bound; [apply Z.pow_pos_nonneg; lia|].
      rewrite <- Z.pow_add_r by lia. by replace (Zdigits2 m - 53 + 52) with (Zdigits2 m - 1) by lia.
    - apply Z.div_lt_upper_bound; [apply Z.pow_pos_nonneg; lia|].
      rewrite <- Z.pow_add_r by lia. by replace (Zdigits2 m - 53 + 53) with (Zdigits2 m) by lia. }
  destruct (shr_fexp prec emax m2 e' loc_Exact) as [mrs'' e''] eqn:E2.
  apply shr_fexp_spec in E2 as [He'' Hm'']; [|lia].
  rewrite fexp_le in He''.
  assert (Hd2 : 53 <= Zdigits2 m2 <= 54).
  { split.
    - destruct (Z_lt_le_dec (Zdigits2 m2) 53) as [Hc|]; [|done]. exfalso.
      pose proof (Zdigits2_nonneg m2). pose proof (Zdigits2_gt m2 ltac:(lia)).
      assert (2 ^ Zdigits2 m2 <= 2 ^ 52) by (apply Z.pow_le_mono_r; lia). lia.
    - apply Zdigits2_le; [lia|]. change (2 ^ 54) with (2 * 2 ^ 53). lia. }
  assert (Hm3 : 0 < shr_m mrs'').
  { rewrite Hm''. apply Z.div_str_pos. split; [apply Z.pow_pos_nonneg; lia|].
    assert (e'' - e' = 0 ∨ e'' - e' = 1) as [->| ->] by lia; simpl; lia. }
  destruct (shr_m mrs'') as [|p|p]; [lia| |lia]. by destruct (_ <=? _).
Qed.

Lemma SFdiv_core_ints ma mb q e' l :
  SFdiv_core_binary prec emax (Z.pos ma) 0 (Z.pos mb) 0 = (q, e', l) →
  e' = Z.min (fexp prec emax (Zdigits2 (Z.pos ma) - Zdigits2 (Z.pos mb))) 0
  ∧ q = Z.pos ma * 2 ^ (- e') / Z.pos mb
  ∧ (Z.pos ma * 2 ^ (- e') mod Z.pos mb = 0 → l = loc_Exact).
Proof.
  unfold SFdiv_core_binary.
  replace (Zdigits2 (Z.pos ma) + 0 - (Zdigits2 (Z.pos mb) + 0))
    with (Zdigits2 (Z.pos ma) - Zdigits2 (Z.pos mb)) by lia.
  change (0 - 0) with 0.
  set (e0 := Z.min _ 0).
  set (m' := match 0 - e0 with Z.pos _ => _ | _ => _ end).
  destruct (Z.div_eucl m' (Z.pos mb)) as [q0 r] eqn:Ediv. intros [= <- <- <-].
  assert (He0 : e0 <= 0) by (unfold e0; lia).
  assert (Hm' : m' = Z.pos ma * 2 ^ (- e0)).
  { unfold m'. destruct (0 - e0) as [|s|s] eqn:Es.
    - replace (- e0) with 0 by lia. lia.
    - rewrite Z.shiftl_mul_pow2 by lia. do 2 f_equal. lia.
    - lia. }
  split; [done|]. rewrite <- Hm'. split.
  - unfold Z.div. by rewrite Ediv.
  - unfold Z.modulo. rewrite Ediv. intros ->.
    unfold new_location, new_location_even, new_location_odd. by destruct (Z.even _).
Qed.

(** [n / n] is exactly [1.0]. *)
Lemma int_truediv_same n :
  n ≠ 0 → int_truediv n n = Ok (S754_finite false 4503599627370496 (-52)).
Proof.
  intros Hn. unfold int_truediv. destruct (Z.eqb_spec n 0) as [|_]; [done|].
  assert (H : SFdiv prec emax (exact false n) (exact false n)
              = S754_finite false 4503599627370496 (-52)); [|by rewrite H].
  assert (Hcore : ∀ m, SFdiv_core_binary prec emax (Z.pos m) 0 (Z.pos m) 0
                       = (2 ^ 53, -53, loc_Exact)).
  { intros m. destruct (SFdiv_core_binary _ _ _ _ _ _) as [[q e'] l] eqn:E.
    apply SFdiv_core_ints in E as (He' & Hq & Hl).
    rewrite Z.sub_diag in He'. change (Z.min _ 0) with (-53) in He'. subst e'.
    change (- -53) with 53 in *. rewrite Z.mul_comm, Z.div_mul in Hq by lia.
    rewrite Z.mul_comm, Z.mod_mul in Hl by lia. by rewrite Hq, Hl. }
  destruct n as [|m|m]; [done| |]; cbn [exact SFdiv]; by rewrite Hcore.
Qed.

(** The quotient of [0 <= a <= b] is at most [1.0]. *)
Lemma int_truediv_at_most_1 a b :
  0 <= a <= b → 0 < b →
  ∃ q, int_truediv a b = Ok q ∧ signed false q ∧ at_most 1 0 q ∧ (a = 0 → is_zero q = true).
Proof.
  intros Hab Hb. destruct (decide (a = b)) as [->|Hne].
  { rewrite int_truediv_same by lia. eexists; split; [done|]. split; [done|].
    split; [|lia]. split; [lia|]. vm_compute. by intros ?. }
  unfold int_truediv. destruct (Z.eqb_spec b 0) as [|_]; [lia|].
  destruct a as [|ma|ma]; [|destruct b as [|mb|mb]; try lia|lia].
  { destruct b; try lia. cbn. by eexists. }
  cbn [exact SFdiv].
  destruct (SFdiv_core_binary _ _ _ _ _ _) as [[q e'] l] eqn:E.
  apply SFdiv_core_ints in E as (He' & Hq & _).
  assert (He0 : e' <= 0) by lia.
  assert (H2 : 0 < 2 ^ (- e')) by (apply Z.pow_pos_nonneg; lia).
  assert (Hq0 : 0 <= q) by (rewrite Hq; apply Z.div_pos; nia).
  assert (Hq1 : q < 1 * 2 ^ (0 - e')).
  { rewrite Hq. apply Z.div_lt_upper_bound; [lia|]. replace (0 - e') with (- e') by lia. nia. }
  pose proof (binary_round_aux_signed false q e' l Hq0) as Hs.
  pose proof (binary_round_aux_at_most false q e' l 1 0 Hq0 ltac:(lia) ltac:(simpl; lia)
                He0 ltac:(lia) ltac:(lia) Hq1) as Hm.
  destruct (binary_round_aux _ _ _ _ _ _) as [s| | |s m e]; try done;
    (eexists; split; [done|]; split; [done|]; split; [done|]; intros; lia).
Qed.

(** [int(q * 100)] for a quotient [q] of at most [1.0]. *)
Lemma as_percent_at_most_100 q :
  signed false q → at_most 1 0 q →
  ∃ n, float_mul_int q 100 ≫= int_of_float = Ok n ∧ 0 <= n <= 100
       ∧ (is_zero q = true → n = 0).
Proof.
  intros Hs Hq. unfold float_mul_int. rewrite float_of_int_100. cbn [mbind result_bind].
  unfold float_mul. destruct q as [s| | |s m e]; try done.
  { exists 0. by cbn. }
  cbn in Hs. subst s. destruct Hq as [He Hm]. cbn [SFmul xorb].
  set (C := 7036874417766400).
  assert (H2 : 0 < 2 ^ (- e)) by (apply Z.pow_pos_nonneg; lia).
  replace (0 - e) with (- e) in Hm by lia.
  pose proof (binary_round_aux_signed false (Z.pos (m * 7036874417766400)) (e + -46) loc_Exact
                ltac:(lia)) as Hsp.
  pose proof (binary_round_aux_at_most false (Z.pos (m * 7036874417766400)) (e + -46) loc_Exact
                (C + 1) (-46) ltac:(lia) ltac:(unfold C; lia) ltac:(by vm_compute)
                ltac:(lia) ltac:(lia) ltac:(lia)) as Hp.
  destruct (binary_round_aux _ _ _ _ _ _) as [s'| | |s' m' e'].
  - exists 0. by cbn.
  - exfalso. apply Hp. replace (-46 - (e + -46)) with (- e) by lia.
    rewrite Pos2Z.inj_mul. fold C. unfold C in *. nia.
  - exfalso. apply Hp. replace (-46 - (e + -46)) with (- e) by lia.
    rewrite Pos2Z.inj_mul. fold C. unfold C in *. nia.
  - cbn in Hsp. subst s'. destruct Hp as [He' Hm'].
    { replace (-46 - (e + -46)) with (- e) by lia.
      rewrite Pos2Z.inj_mul. fold C. unfold C in *. nia. }
    cbn [int_of_float]. destruct (Z.leb_spec 0 e') as [|_]; [lia|].
    eexists; split; [done|]. rewrite Z.shiftr_div_pow2 by lia.
    assert (H2' : 0 < 2 ^ (- e')) by (apply Z.pow_pos_nonneg; lia).
    split; [|done]. split; [apply Z.div_pos; lia|].
    assert (Z.pos m' / 2 ^ (- e') < 101); [|lia].
    apply Z.div_lt_upper_bound; [lia|].
    assert (Hpow : 2 ^ (- e') = 2 ^ 46 * 2 ^ (-46 - e'))
      by (rewrite <- Z.pow_add_r by lia; f_equal; lia).
    assert (0 < 2 ^ (-46 - e')) by (apply Z.pow_pos_nonneg; lia).
    rewrite Hpow. unfold C in Hm'. change (2 ^ 46) with 70368744177664. nia.
Qed.

Lemma Zdigits2_lower m : 0 < m → 2 ^ (Zdigits2 m - 1) <= m.
Proof.
  destruct m as [|p|p]; try lia. intros _. cbn [Zdigits2]. rewrite digits2_pos_size.
  pose proof (Pos.size_le p) as Hs. apply Pos2Z.pos_le_pos in Hs.
  rewrite Pos2Z.inj_pow in Hs. change (Z.pos 2) with 2 in Hs.
  replace (Z.pos (Pos.size p)) with (Z.pos (Pos.size p) - 1 + 1) in Hs by lia.
  rewrite Z.pow_add_r in Hs by lia. lia.
Qed.

(** An integer over a number of days does not underflow. *)
Lemma SFdiv_by_days s ma mb :
  Z.pos mb < 2 ^ 30 →
  match SFdiv prec emax (S754_finite s ma 0) (S754_finite false mb 0) with
  | S754_finite s' _ _ | S754_infinity s' => s' = s
  | _ => False
  end.
Proof.
  intros Hmb. cbn [SFdiv]. replace (xorb s false) with s by (by destruct s).
  destruct (SFdiv_core_binary _ _ _ _ _ _) as [[q e'] l] eqn:E.
  apply SFdiv_core_ints in E as (He' & Hq & _). rewrite fexp_le in He'.
  assert (Hd2 : 1 <= Zdigits2 (Z.pos mb) <= 30).
  { split; [cbn [Zdigits2]; lia|]. apply Zdigits2_le; lia. }
  assert (Hd1 : 1 <= Zdigits2 (Z.pos ma)) by (cbn [Zdigits2]; lia).
  pose proof (Zdigits2_lower (Z.pos ma) ltac:(lia)) as Hlow.
  pose proof (Zdigits2_gt (Z.pos mb) ltac:(lia)) as Hup.
  apply binary_round_aux_normal; [|lia].
  rewrite Hq. apply Z.div_le_lower_bound; [lia|].
  assert (Hs : 52 + Zdigits2 (Z.pos mb) <= Zdigits2 (Z.pos ma) - 1 + - e') by lia.
  assert (2 ^ (52 + Zdigits2 (Z.pos mb)) <= 2 ^ (Zdigits2 (Z.pos ma) - 1 + - e'))
    by (apply Z.pow_le_mono_r; lia).
  rewrite !Z.pow_add_r in * by lia.
  assert (0 < 2 ^ (- e')) by (apply Z.pow_pos_nonneg; lia).
  nia.
Qed.

Lemma int_truediv_by_days a b :
  a ≠ 0 → 0 < b < 2 ^ 30 →
  int_truediv a b = Raise OverflowError
  ∨ ∃ m e, int_truediv a b = Ok (S754_finite (a <? 0) m e).
Proof.
  intros Ha Hb. unfold int_truediv. destruct (Z.eqb_spec b 0) as [|_]; [lia|].
  destruct b as [|mb|mb]; try lia.
  destruct a as [|ma|ma]; [done| |]; cbn [exact];
    [pose proof (SFdiv_by_days false ma mb ltac:(lia)) as H
    |pose proof (SFdiv_by_days true ma mb ltac:(lia)) as H];
    destruct (SFdiv _ _ _ _) as [| | |]; try done; subst; cbn; eauto.
Qed.

Lemma float_of_int_signed n :
  float_of_int n = Raise OverflowError
  ∨ ∃ x, float_of_int n = Ok x ∧ signed (n <? 0) x ∧ is_infinite x = false
         ∧ (n = 0 → is_zero x = true).
Proof.
  unfold float_of_int.
  assert (H : signed (n <? 0) (binary_normalize prec emax n 0 false)).
  { destruct n as [|m|m]; [done| |]; cbn [binary_normalize]; unfold binary_round;
      destruct (shl_align _ _ _) as [mz ez]; by apply binary_round_aux_signed. }
  destruct n as [|m|m]; [right; by eexists| |];
    (destruct (binary_normalize _ _ _ _ _) as [| | |] eqn:E; cbn; [right|by left|done|right];
     (eexists; split; [done|]; split; [done|]; split; [done|]; intros; lia)).
Qed.

Lemma SFdiv_core_nonneg m1 e1 m2 e2 q e' l :
  0 <= m1 → 0 < m2 → SFdiv_core_binary prec emax m1 e1 m2 e2 = (q, e', l) → 0 <= q.
Proof.
  intros H1 H2. unfold SFdiv_core_binary.
  set (m' := match _ - _ - _ with Z.pos _ => _ | _ => _ end).
  destruct (Z.div_eucl m' m2) as [q0 r] eqn:Ediv. intros [= <- _ _].
  assert (0 <= m').
  { unfold m'. destruct (_ - _ - _); [done| |done]. by apply Z.shiftl_nonneg. }
  replace q0 with (m' / m2) by (unfold Z.div; by rewrite Ediv).
  apply Z.div_pos; lia.
Qed.

(** The quotient of a float by a positive float has the sign of the
    dividend. *)
Lemma float_truediv_signed s x m e :
  signed s x → is_infinite x = false →
  ∃ q, float_truediv x (S754_finite false m e) = Ok q ∧ signed s q.
Proof.
  intros Hs Hx. unfold float_truediv. cbn [is_zero]. eexists; split; [done|].
  destruct x as [s'| | |s' mx ex]; try done; cbn [SFdiv]; cbn in Hs; subst s'.
  - by destruct s.
  - replace (xorb s false) with s by (by destruct s).
    destruct (SFdiv_core_binary _ _ _ _ _ _) as [[q e'] l] eqn:E.
    apply SFdiv_core_nonneg in E; [|lia|lia]. by apply binary_round_aux_signed.
Qed.

Lemma float_truediv_zero x s m e :
  is_zero x = true →
  ∃ q, float_truediv x (S754_finite s m e) = Ok q ∧ is_zero q = true.
Proof. destruct x; try done. intros _. by eexists. Qed.

Lemma timedelta_days_zero x : is_zero x = true → Datetime.timedelta_days x = Ok 0.
Proof. by destruct x. Qed.

Lemma modf_signed s x :
  signed s x →
  signed s (modf x).1 ∧ (if s then (modf x).2 <= 0 else 0 <= (modf x).2).
Proof.
  destruct x as [s'| | |s' m e]; try done; cbn [modf signed]; intros ->.
  - split; [done|]. by destruct s.
  - split; [done|]. by destruct s.
  - destruct (Z.leb_spec 0 e) as [He|He]; cbn [fst snd].
    + split; [done|]. pose proof (proj2 (Z.shiftl_nonneg (Z.pos m) e) ltac:(lia)).
      destruct s; lia.
    + pose proof (proj2 (Z.shiftr_nonneg (Z.pos m) (- e)) ltac:(lia)) as Hq.
      assert (Hr : 0 <= Z.land (Z.pos m) (Z.ones (- e))) by (apply Z.land_nonneg; lia).
      split; [|destruct s; lia].
      destruct (Z.land _ _) as [|r|r]; [by destruct s| |lia].
      destruct s; [change (- Z.pos r) with (Z.neg r)|]; cbn [binary_normalize];
        unfold binary_round;
        destruct (shl_align _ _ _) as [mz ez]; by apply binary_round_aux_signed.
Qed.

Lemma float_mul_signed s m e x :
  signed s x → signed s (float_mul (S754_finite false m e) x).
Proof.
  unfold float_mul. destruct x as [s'| | |s' mx ex]; try done; cbn [SFmul signed xorb];
    intros ->; try done.
  by apply binary_round_aux_signed.
Qed.

Lemma signed_sign s x : signed s x → sign x = s.
Proof. by destruct x. Qed.

(** [timedelta(days=x).days] has the sign of [x], and fails only with
    [OverflowError] when [x] is a number. *)
Lemma timedelta_days_signed s x :
  signed s x →
  Datetime.timedelta_days x = Raise OverflowError
  ∨ ∃ days, Datetime.timedelta_days x = Ok days ∧ (if s then days <= 0 else 0 <= days).
Proof.
  intros Hs. unfold Datetime.timedelta_days.
  assert (Hbody :
    ∀ frac whole, signed s frac → (if s then whole <= 0 else 0 <= whole) →
      ∃ us, (if is_zero frac then Ok (whole * Datetime.us_per_day)
             else
               f ← float_of_int Datetime.us_per_day;
               let '(leftover, whole_us) := modf (float_mul f frac) in
               let y := whole * Datetime.us_per_day + whole_us in
               let away := if sign leftover then -1 else 1 in
               Ok (y + match compare_half leftover with
                       | Lt => 0
                       | Gt => away
                       | Eq => if Z.odd y then away else 0
                       end)) = Ok us
            ∧ (if s then us <= 0 else 0 <= us)).
  { intros frac whole Hf Hw. unfold Datetime.us_per_day.
    destruct (is_zero frac).
    { eexists; split; [done|]. destruct s; lia. }
    change (float_of_int 86400000000)
      with (Ok (S754_finite false 5662310400000000 (-16)) : result float).
    cbn [mbind result_bind].
    pose proof (float_mul_signed s 5662310400000000 (-16) frac Hf) as Hp.
    destruct (modf_signed s _ Hp) as [Hl Hwu].
    destruct (modf (float_mul _ frac)) as [leftover whole_us]. cbn [fst snd] in Hl, Hwu.
    cbn zeta. rewrite (signed_sign s leftover Hl).
    eexists; split; [done|].
    destruct s, (compare_half leftover); try destruct (Z.odd _); lia. }
  pose proof (modf_signed s x Hs) as [Hf Hw].
  destruct x as [s'| | |s' m e]; [|by left|done|];
    (destruct (modf _) as [frac whole]; cbn [fst snd] in Hf, Hw;
     specialize (Hbody frac whole Hf Hw); cbn zeta in Hbody |- *;
     destruct Hbody as (us & -> & Hus); cbn [mbind result_bind];
     destruct (_ && _); [right|by left];
     eexists; split; [done|]; unfold Datetime.us_per_day; destruct s;
     [assert (us / 86400000000 < 1); [apply Z.div_lt_upper_bound; lia|lia]
     |apply Z.div_pos; lia]).
Qed.

End FloatProperties.

Module PercentProperties.

Import Model Http QuerySet Progress ProgressActions Create Spec Aux Examples ActionMenu Compare Terms Samples.

Import Py PyFacts FloatProperties.

(** X10. For [0 <= c <= p] the percentage [int(c / p * 100) if p else 0]
    is computed without exception, whatever the size of the numbers, and
    lies between 0 and 100; it is 0 for [c = 0] and 100 for [c = p] when
    [p] is not 0. *)
Theorem percent_of_a_part_is_between_0_and_100 c p :
  0 <= c <= p →
  ∃ n, conversions_percent c p = Ok n
       ∧ (p ≠ 0 → int_percent c p = Ok n)
       ∧ 0 <= n <= 100
       ∧ (c = 0 → n = 0)
       ∧ (c = p → p ≠ 0 → n = 100).
Proof.
  intros Hcp. unfold conversions_percent, truthy.
  destruct (Z.eqb_spec p 0) as [->|Hp]; cbn [negb].
  { exists 0. repeat split; try done; lia. }
  destruct (decide (c = p)) as [->|Hne].
  { exists 100. unfold int_percent. rewrite int_truediv_same by done.
    repeat split; try done; lia. }
  destruct (int_truediv_at_most_1 c p Hcp ltac:(lia)) as (q & Hq & Hs & Hle & Hz).
  destruct (as_percent_at_most_100 q Hs Hle) as (n & Hn & Hrange & Hn0).
  exists n. unfold int_percent. rewrite Hq. cbn [mbind result_bind].
  change (float_mul_int q 100 ≫= int_of_float = Ok n) in Hn.
  split; [done|]. split; [done|]. split; [done|]. split; [|done].
  intros Hc. by apply Hn0, Hz.
Qed.

Lemma percent_of_a_part_is_between_0_and_100_witness :
  0 <= 29 <= 100
  ∧ ∃ n, conversions_percent 29 100 = Ok n
       ∧ (100 ≠ 0 → int_percent 29 100 = Ok n)
       ∧ 0 <= n <= 100
       ∧ (29 = 0 → n = 0)
       ∧ (29 = 100 → 100 ≠ 0 → n = 100).
Proof.
  split; [lia|]. exact (percent_of_a_part_is_between_0_and_100 29 100 ltac:(lia)).
Defined.

End PercentProperties.

Module EstimateProperties.

Import Model Http QuerySet Progress ProgressActions Create Spec Aux Examples ActionMenu Compare Terms Samples.

Import Py PyFacts FloatProperties Datetime.

(** The steps of the estimate for a test that is due one, when the
    running duration is a positive number of days. *)
Lemma estimate_steps clock ab_test css :
  estimate_due clock ab_test css →
  0 < running_duration_days_again clock <= MAX_DELTA_DAYS →
  estimated_completion_date clock ab_test css = Raise OverflowError
  ∨ ∃ remaining delta,
      signed (xorb (sample_size ab_test - css <? 0) (css <? 0)) remaining
      ∧ (sample_size ab_test = css → is_zero remaining = true)
      ∧ timedelta_days remaining = Ok delta
      ∧ estimated_completion_date clock ab_test css
        = (d ← date_add (today clock) delta; Ok (Some d)).
Proof.
  intros (Hst & Hcss & Hdays) Hagain. unfold estimated_completion_date, truthy.
  rewrite bool_decide_eq_true_2 by done.
  destruct (Z.eqb_spec css 0) as [|_]; [done|]. cbn [negb andb].
  destruct (Z.ltb_spec 0 (running_duration_days clock)) as [_|]; [|lia].
  destruct (int_truediv_by_days css (running_duration_days_again clock) Hcss
              ltac:(unfold MAX_DELTA_DAYS in Hagain; lia)) as [->|(m & e & ->)];
    [by left|]. cbn [mbind result_bind].
  unfold int_truediv_float.
  destruct (float_of_int_signed (sample_size ab_test - css))
    as [->|(x & -> & Hx & Hfin & Hzero)];
    [by left|]. cbn [mbind result_bind].
  assert (Hq : ∃ q, float_truediv x (S754_finite (css <? 0) m e) = Ok q
                    ∧ signed (xorb (sample_size ab_test - css <? 0) (css <? 0)) q
                    ∧ (sample_size ab_test = css → is_zero q = true)).
  { cut (∃ q, float_truediv x (S754_finite (css <? 0) m e) = Ok q
              ∧ signed (xorb (sample_size ab_test - css <? 0) (css <? 0)) q).
    { intros (q & Hq & Hs). exists q. split; [done|]. split; [done|]. intros Heq.
      destruct (float_truediv_zero x (css <? 0) m e (Hzero ltac:(lia))) as (q' & Hq' & Hz).
      congruence. }
    destruct (css <? 0).
    - unfold float_truediv. cbn [is_zero]. eexists; split; [done|].
      destruct x as [s'| | |s' mx ex]; try done; cbn [SFdiv]; cbn in Hx; subst s'; [done|].
      destruct (SFdiv_core_binary _ _ _ _ _ _) as [[q e'] l] eqn:E.
      apply SFdiv_core_nonneg in E; [|lia|lia]. by apply binary_round_aux_signed.
    - rewrite xorb_false_r. by apply float_truediv_signed. }
  destruct Hq as (q & -> & Hq & Hqz). cbn [mbind result_bind].
  destruct (timedelta_days_signed _ q Hq) as [->|(delta & Hdelta & _)]; [by left|].
  right. exists q, delta. by rewrite Hdelta.
Qed.

(** X11. When the two readings of the running duration agree and are the
    days of a timedelta (at most 999999999), the completion estimate is
    [None] exactly when the test is not running, has no participants or
    has not run for a whole day; otherwise it is a date between [date.min]
    and [date.max], or the computation raises [OverflowError]. It never
    raises [ZeroDivisionError] or [ValueError]. *)
Theorem estimate_fails_only_by_overflow clock ab_test css :
  running_duration_days_again clock = running_duration_days clock →
  running_duration_days clock <= MAX_DELTA_DAYS →
  match estimated_completion_date clock ab_test css with
  | Ok None => ¬ estimate_due clock ab_test css
  | Ok (Some d) => estimate_due clock ab_test css ∧ valid_date d
  | Raise e => estimate_due clock ab_test css ∧ e = OverflowError
  end.
Proof.
  intros Hsame Hmax.
  assert (Hdec : Decision (estimate_due clock ab_test css))
    by (unfold estimate_due; apply _).
  destruct (decide (estimate_due clock ab_test css)) as [Hdue|Hdue].
  - destruct (estimate_steps clock ab_test css Hdue) as [->|(remaining & delta & _ & _ & _ & ->)].
    { destruct Hdue as (_ & _ & ?). lia. }
    { done. }
    unfold date_add. cbn zeta.
    destruct (_ && _) eqn:E; cbn [mbind result_bind]; [|done].
    apply andb_true_iff in E as [?%Z.leb_le ?%Z.leb_le]. done.
  - assert (H : estimated_completion_date clock ab_test css = Ok None); [|by rewrite H].
    unfold estimated_completion_date, truthy, estimate_due in *.
    case_bool_decide; cbn [andb]; [|done].
    destruct (Z.eqb_spec css 0); cbn [negb]; [done|].
    destruct (Z.ltb_spec 0 (running_duration_days clock)); [|done].
    by destruct Hdue.
Qed.

(** X12. An estimate produced for a test with participants is today or
    later as long as the current sample size does not exceed the sample
    size of the test, and today or earlier once it has reached it; it is
    today when the two are equal. *)
Theorem estimate_is_after_today_until_sample_is_complete clock ab_test css d :
  0 < css →
  0 < running_duration_days_again clock <= MAX_DELTA_DAYS →
  estimated_completion_date clock ab_test css = Ok (Some d) →
  (css <= sample_size ab_test → today clock <= d)
  ∧ (sample_size ab_test <= css → d <= today clock).
Proof.
  intros Hcss Hagain Hd.
  assert (Hdue : estimate_due clock ab_test css).
  { unfold estimated_completion_date, truthy, estimate_due in *.
    case_bool_decide; cbn [andb] in Hd; [|done].
    destruct (Z.eqb_spec css 0); cbn [negb] in Hd; [done|].
    by destruct (Z.ltb_spec 0 (running_duration_days clock)). }
  destruct (estimate_steps clock ab_test css Hdue Hagain)
    as [H|(remaining & delta & Hs & Hz & Hdelta & H)]; rewrite H in Hd; [done|].
  unfold date_add in Hd. cbn zeta in Hd. destruct (_ && _); [|done].
  cbn [mbind result_bind] in Hd. injection Hd as <-.
  destruct (Z.ltb_spec css 0) as [|_]; [lia|]. rewrite xorb_false_r in Hs.
  destruct (timedelta_days_signed _ remaining Hs) as [Ht|(delta' & Ht & Hsign)];
    rewrite Ht in Hdelta; [done|]. injection Hdelta as ->.
  destruct (decide (sample_size ab_test = css)) as [Heq|Hne].
  { rewrite (timedelta_days_zero _ (Hz Heq)) in Ht. injection Ht as <-. lia. }
  destruct (Z.ltb_spec (sample_size ab_test - css) 0); lia.
Qed.

Lemma estimate_fails_only_by_overflow_witness :
  running_duration_days_again clock_day_30 = running_duration_days clock_day_30
  ∧ running_duration_days clock_day_30 <= MAX_DELTA_DAYS
  ∧ estimated_completion_date clock_day_30 (test_with RUNNING 100) 40 = Ok (Some 737866)
  ∧ estimate_due clock_day_30 (test_with RUNNING 100) 40
  ∧ valid_date 737866.
Proof.
  assert (H1 : running_duration_days clock_day_30 <= MAX_DELTA_DAYS) by (by vm_compute).
  assert (E : estimated_completion_date clock_day_30 (test_with RUNNING 100) 40
              = Ok (Some 737866)) by (by vm_compute).
  pose proof (estimate_fails_only_by_overflow clock_day_30 (test_with RUNNING 100) 40
                eq_refl H1) as H.
  rewrite E in H. split; [done|]. split; [exact H1|]. split; [exact E|]. exact H.
Defined.

Lemma estimate_is_after_today_until_sample_is_complete_witness :
  0 < 40
  ∧ 0 < running_duration_days_again clock_day_30 <= MAX_DELTA_DAYS
  ∧ estimated_completion_date clock_day_30 (test_with RUNNING 100) 40 = Ok (Some 737866)
  ∧ (40 <= sample_size (test_with RUNNING 100) → today clock_day_30 <= 737866)
  ∧ (sample_size (test_with RUNNING 100) <= 40 → 737866 <= today clock_day_30).
Proof.
  assert (H1 : 0 < running_duration_days_again clock_day_30 <= MAX_DELTA_DAYS)
    by (by vm_compute).
  assert (E : estimated_completion_date clock_day_30 (test_with RUNNING 100) 40
              = Ok (Some 737866)) by (by vm_compute).
  split; [lia|]. split; [exact H1|]. split; [exact E|].
  exact (estimate_is_after_today_until_sample_is_complete clock_day_30
           (test_with RUNNING 100) 40 737866 ltac:(lia) H1 E).
Defined.

End EstimateProperties.

(** ** The progress view as a whole *)

Module ViewProperties.

Import Model Http QuerySet Progress ProgressActions Create Spec Aux Examples ActionMenu Compare Terms Samples.

Import Py PyFacts FloatProperties EstimateProperties Datetime.

Lemma exact_signed a : signed (a <? 0) (exact false a) ∧ is_infinite (exact false a) = false.
Proof. by destruct a. Qed.

Lemma SFdiv_signed s s' x m e :
  signed s x → is_infinite x = false →
  signed (xorb s s') (SFdiv prec emax x (S754_finite s' m e)).
Proof.
  intros Hs Hx. destruct x as [sx| | |sx mx ex]; try done; cbn [SFdiv]; cbn in Hs; subst sx.
  - done.
  - destruct (SFdiv_core_binary _ _ _ _ _ _) as [[q e'] l] eqn:E.
    apply SFdiv_core_nonneg in E; [|lia|lia]. by apply binary_round_aux_signed.
Qed.

(** The quotient of two integers is a number, unless it is too large or
    the divisor is zero. *)
Lemma int_truediv_outcomes a b :
  b ≠ 0 →
  int_truediv a b = Raise OverflowError
  ∨ ∃ q s, int_truediv a b = Ok q ∧ signed s q ∧ is_infinite q = false.
Proof.
  intros Hb. unfold int_truediv. destruct (Z.eqb_spec b 0) as [|_]; [done|].
  destruct (exact_signed a) as [Ha Hfin].
  assert (Hq : signed (xorb (a <? 0) (b <? 0)) (SFdiv prec emax (exact false a) (exact false b))).
  { destruct b as [|mb|mb]; [done| |]; cbn [exact]; by apply SFdiv_signed. }
  destruct (SFdiv _ _ _ _) as [| | |] eqn:E; cbn [is_infinite]; [right|by left|done|right];
    by eexists _, _.
Qed.

(** [int(a / b * 100)] fails only when the quotient or the product is too
    large, for a divisor that is not zero. *)
Lemma int_percent_outcomes a b :
  b ≠ 0 → int_percent a b = Raise OverflowError ∨ ∃ n, int_percent a b = Ok n.
Proof.
  intros Hb. unfold int_percent.
  destruct (int_truediv_outcomes a b Hb) as [->|(q & s & -> & Hs & Hfin)]; [by left|].
  cbn [mbind result_bind]. unfold float_mul_int. rewrite float_of_int_100.
  cbn [mbind result_bind]. unfold float_mul.
  destruct q as [sq| | |sq mq eq]; try done; cbn [SFmul].
  - right. by eexists.
  - pose proof (binary_round_aux_signed (xorb sq false) (Z.pos (mq * 7036874417766400))
                  (eq + -46) loc_Exact ltac:(lia)) as Hp.
    destruct (binary_round_aux _ _ _ _ _ _) as [| | |]; try done; cbn; eauto.
Qed.

Lemma int_percent_zero_divisor a : int_percent a 0 = Raise ZeroDivisionError.
Proof. done. Qed.

Lemma conversions_percent_outcomes c p :
  conversions_percent c p = Raise OverflowError ∨ ∃ n, conversions_percent c p = Ok n.
Proof.
  unfold conversions_percent, truthy. destruct (Z.eqb_spec p 0) as [|Hp]; cbn [negb].
  - right. by eexists.
  - by apply int_percent_outcomes.
Qed.

Lemma render_context_outcomes ab_test rows estimate series :
  match render_context ab_test rows estimate series with
  | Ok _ => sample_size ab_test ≠ 0
  | Raise e => e = OverflowError ∨ (e = ZeroDivisionError ∧ sample_size ab_test = 0)
  end.
Proof.
  unfold render_context. cbn zeta.
  destruct (decide (sample_size ab_test = 0)) as [Hz|Hz].
  { rewrite Hz, int_percent_zero_divisor. cbn. by right. }
  destruct (int_percent_outcomes (current_sample_size rows) (sample_size ab_test) Hz)
    as [->|[n ->]]; cbn [mbind result_bind]; [by left|].
  destruct (conversions_percent_outcomes (control_conversions rows) (control_participants rows))
    as [->|[n1 ->]]; cbn [mbind result_bind]; [by left|].
  destruct (conversions_percent_outcomes (treatment_conversions rows)
              (treatment_participants rows))
    as [->|[n2 ->]]; cbn [mbind result_bind]; [by left|done].
Qed.

Section Handler.

Context `{methods : AbTestMethods}.

(** X14. A request to [progress] that is not a POST leaves the test and
    the messages alone and is answered with the progress template, or the
    view fails with [ZeroDivisionError], which happens only for a test
    whose sample size is 0, or with [OverflowError]; such a test is never
    rendered. This holds when the two readings of the running duration
    agree and are the days of a timedelta. *)
Theorem progress_get_fails_only_by_zero_sample_size_or_overflow
    clock rows request page ab_test msgs :
  method request ≠ "POST" →
  running_duration_days_again clock = running_duration_days clock →
  running_duration_days clock <= MAX_DELTA_DAYS →
  ∃ response,
    progress clock rows request page ab_test msgs = (ab_test, msgs, response)
    ∧ match response with
      | Ok (Render template _) =>
          template = "wagtail_ab_testing/progress.html" ∧ sample_size ab_test ≠ 0
      | Ok (Redirect _ _) => False
      | Raise e => e = OverflowError ∨ (e = ZeroDivisionError ∧ sample_size ab_test = 0)
      end.
Proof.
  intros Hget Hsame Hmax. unfold progress. rewrite (bool_decide_eq_false_2 _ Hget).
  eexists; split; [done|]. unfold progress_get.
  assert (Hdec : Decision (estimate_due clock ab_test (current_sample_size rows)))
    by (unfold estimate_due; apply _).
  assert (Hestimate :
    estimated_completion_date clock ab_test (current_sample_size rows) = Raise OverflowError
    ∨ ∃ estimate,
        estimated_completion_date clock ab_test (current_sample_size rows) = Ok estimate).
  { destruct Hdec as [Hdue|Hdue].
    - destruct (estimate_steps clock ab_test _ Hdue) as [->|(remaining & delta & _ & _ & _ & ->)].
      { destruct Hdue as (_ & _ & ?). lia. }
      { by left. }
      unfold date_add. cbn zeta. destruct (_ && _); cbn [mbind result_bind]; eauto.
    - right. exists None.
      unfold estimated_completion_date, truthy, estimate_due in *.
      case_bool_decide; cbn [andb]; [|done].
      destruct (Z.eqb_spec (current_sample_size rows) 0); cbn [negb]; [done|].
      destruct (Z.ltb_spec 0 (running_duration_days clock)); [|done].
      by destruct Hdue. }
  destruct Hestimate as [->|[estimate ->]]; cbn [mbind result_bind]; [by left|].
  pose proof (render_context_outcomes ab_test rows estimate (chart (order_by_date_hour rows)))
    as Hctx.
  destruct (render_context _ _ _ _) as [ctx|e]; by cbn.
Qed.

End Handler.

Lemma progress_get_fails_only_by_zero_sample_size_or_overflow_witness :
  method (get editor) ≠ "POST"
  ∧ running_duration_days clock_day_30 <= MAX_DELTA_DAYS
  ∧ ∃ response,
      progress (methods := spec_methods) clock_day_30 rows_eighty (get editor) home
        (test_with RUNNING 0) []
      = (test_with RUNNING 0, [], response)
      ∧ match response with
        | Ok (Render template _) =>
            template = "wagtail_ab_testing/progress.html"
            ∧ sample_size (test_with RUNNING 0) ≠ 0
        | Ok (Redirect _ _) => False
        | Raise e =>
            e = OverflowError
            ∨ (e = ZeroDivisionError ∧ sample_size (test_with RUNNING 0) = 0)
        end.
Proof.
  assert (H1 : method (get editor) ≠ "POST") by (by vm_compute).
  assert (H2 : running_duration_days clock_day_30 <= MAX_DELTA_DAYS) by (by vm_compute).
  split; [exact H1|]. split; [exact H2|].
  exact (progress_get_fails_only_by_zero_sample_size_or_overflow (methods := spec_methods)
           clock_day_30 rows_eighty (get editor) home (test_with RUNNING 0) [] H1 eq_refl H2).
Defined.

End ViewProperties.
